(** * ai-journalist: the multi-source fallback and merge pipeline

    A shallow embedding of the news pipeline of [backend.py],
    [free_news_scraper.py] and [utils.py], and the properties of it that the
    specification states.

    Python [str] values are [string]s (sequences of code points below 256),
    [dict]s with string keys are [gmap string _], and the external services
    (HTTP, the LLM, text-to-speech, the two scrapers that live outside these
    files) are functions of the request they receive, collected in a record
    [World].  Effects are an exception-and-log monad [M]: a computation
    either returns or raises, and records every call that leaves the
    process. *)

From Stdlib Require Import Ascii String.
From stdpp Require Import base option list gmap strings.

#[local] Set Warnings "-clear-no-such-hyp".

(** ** Python string primitives *)

Module PyStr.

(** [bool(s)] for a string: the empty string is falsy. *)
Definition truthy (s : string) : bool :=
  match s with
  | EmptyString => false
  | String _ _ => true
  end.

(** [str.isspace] on one character, for code points below 256: the ASCII
    white space 9-13 and 28-32, NEL (133) and NBSP (160). *)
Definition isspace (c : ascii) : bool :=
  let n := nat_of_ascii c in
  ((9 <=? n) && (n <=? 13)) || ((28 <=? n) && (n <=? 32))
  || (n =? 133) || (n =? 160).

Fixpoint lstrip (s : string) : string :=
  match s with
  | EmptyString => EmptyString
  | String c s' => if isspace c then lstrip s' else s
  end.

Fixpoint rstrip (s : string) : string :=
  match s with
  | EmptyString => EmptyString
  | String c s' =>
      match rstrip s' with
      | EmptyString => if isspace c then EmptyString else String c EmptyString
      | r => String c r
      end
  end.

(** A string that does not begin with white space. *)
Definition lstripped (s : string) : Prop :=
  match s with
  | EmptyString => True
  | String c _ => isspace c = false
  end.

(** [s.strip()] *)
Definition strip (s : string) : string := rstrip (lstrip s).

(** [s.split(sep)] for a one-character separator: never the empty list. *)
Fixpoint split (sep : ascii) (s : string) : list string :=
  match s with
  | EmptyString => [EmptyString]
  | String c s' =>
      if Ascii.eqb c sep then EmptyString :: split sep s'
      else match split sep s' with
           | [] => [String c EmptyString]
           | w :: ws => String c w :: ws
           end
  end.

(** [sep.join(l)] *)
Fixpoint join (sep : string) (l : list string) : string :=
  match l with
  | [] => EmptyString
  | [x] => x
  | x :: xs => x +:+ sep +:+ join sep xs
  end.

(** [s.startswith(p)] *)
Definition startswith (s p : string) : bool := String.prefix p s.

(** [sub in s]: [sub] occurs in [s] as a contiguous run. *)
Definition contains (s sub : string) : Prop :=
  ∃ pre post, s = pre +:+ sub +:+ post.

(** The character [c] occurs in [s]. *)
Fixpoint has_char (c : ascii) (s : string) : bool :=
  match s with
  | EmptyString => false
  | String d s' => Ascii.eqb d c || has_char c s'
  end.

End PyStr.

(** ** [utils.py]: headline extraction *)

Definition newline : ascii := "010"%char.
Definition nl : string := String newline EmptyString.

(** The sentinel left in the page text by the "show more" control. *)
Definition sentinel : string := "More".

(** [lines = [line.strip() for line in cleaned_text.split('\n') if line.strip()]] *)
Definition stripped_lines (cleaned_text : string) : list string :=
  map PyStr.strip
      (filter (fun line => PyStr.truthy (PyStr.strip line) = true)
              (PyStr.split newline cleaned_text)).

(** One turn of the [for line in lines] loop on the pair
    [(headlines, current_block)]. *)
Definition headline_step (st : list string * list string) (line : string)
  : list string * list string :=
  let '(headlines, current_block) := st in
  if String.eqb line sentinel then
    match current_block with
    | first :: _ => (headlines ++ [first], [])
    | [] => (headlines, current_block)
    end
  else (headlines, current_block ++ [line]).

(** The flush of the block that is left when the input ends. *)
Definition headline_flush (st : list string * list string) : list string :=
  let '(headlines, current_block) := st in
  match current_block with
  | first :: _ => headlines ++ [first]
  | [] => headlines
  end.

(** The list [headlines] as it stands when [extract_headlines] returns. *)
Definition headlines_of (cleaned_text : string) : list string :=
  headline_flush (fold_left headline_step (stripped_lines cleaned_text) ([], [])).

Definition extract_headlines (cleaned_text : string) : string :=
  PyStr.join nl (headlines_of cleaned_text).

(** ** Exceptions, the call log and the monad of effects *)

(** The exceptions the three files raise or catch: FastAPI's [HTTPException]
    and every other [Exception], kept with its message. *)
Inductive exn : Type :=
| HTTPException (status_code : nat) (detail : string)
| Exception (msg : string).

Inductive result (A : Type) : Type :=
| Ok (a : A)
| Raise (e : exn).
Arguments Ok {A} a.
Arguments Raise {A} e.

(** A category's dataset: [{"news_analysis": {topic: text}}] and the like. *)
Abbreviation dataset := (gmap string (gmap string string)).

Inductive provider : Type := BrightData | NewsAPI | Reddit.

(** What the log records: a provider being invoked by the orchestrator, and
    the calls that leave the process. *)
Inductive event : Type :=
| Invoke (p : provider) (topics : list string)
| HttpGet (url api_key q : string)
| CallGemini (max_output_tokens : nat) (prompt : string)
| CallTTS (text : string)
| ReadFile (path : string).

Definition M (A : Type) : Type := (result A * list event)%type.

Definition ret {A} (a : A) : M A := (Ok a, []).

Definition raise {A} (e : exn) : M A := (Raise e, []).

Definition bind {A B} (m : M A) (f : A → M B) : M B :=
  match m with
  | (Ok a, log) => let '(r, log') := f a in (r, log ++ log')
  | (Raise e, log) => (Raise e, log)
  end.

(** [try: m  except Exception as e: handler e] *)
Definition try_catch {A} (m : M A) (handler : exn → M A) : M A :=
  match m with
  | (Ok a, log) => (Ok a, log)
  | (Raise e, log) => let '(r, log') := handler e in (r, log ++ log')
  end.

(** Record [ev], then deliver the outcome [r] of the call. *)
Definition call {A} (ev : event) (r : result A) : M A := (r, [ev]).

Notation "'let*' x ':=' m 'in' k" := (bind m (fun x => k))
  (at level 10, x name, m at level 100, k at level 200,
   format "'[v' 'let*'  x  :=  m  'in'  '/' k ']'").

(** A [for] loop that threads an accumulator through effects. *)
Fixpoint for_each {A B} (body : A → B → M A) (l : list B) (acc : A) : M A :=
  match l with
  | [] => ret acc
  | x :: l' => let* acc' := body acc x in for_each body l' acc'
  end.

Definition outcome {A} (m : M A) : result A := fst m.
Definition log_of {A} (m : M A) : list event := snd m.

(** ** The process environment and the world outside *)

(** [os.environ] *)
Abbreviation environ := (gmap string string).

(** Truthiness of [os.getenv(name)]: set, and to a non-empty value. *)
Definition env_set (env : environ) (name : string) : bool :=
  match env !! name with
  | Some v => PyStr.truthy v
  | None => false
  end.

(** One element of NewsAPI's ["articles"]; a missing or null field is [None]. *)
Record article : Type := { title : option string; description : option string }.

(** The decoded body of a NewsAPI answer: [data.get('articles', [])] reads
    the one key the code looks at. *)
Record json_body : Type := { articles : option (list article) }.

(** A [requests] response: its status and what [response.json()] gives. *)
Record response : Type := { status_code : nat; json : result json_body }.

(** The services behind the pipeline, each a function of the request it
    receives.  [news_scraper_scrape_news] and [scrape_reddit_topics] stand
    for [news_scraper.NewsScraper().scrape_news] and
    [reddit_scraper.scrape_reddit_topics], two modules the backend imports;
    [exception_str] is [str(e)] for an [HTTPException], which the web
    framework defines. *)
Record World : Type := {
  news_scraper_scrape_news : list string → result dataset;
  scrape_reddit_topics : list string → result dataset;
  requests_get : string → string → string → result response;
  generate_content : nat → string → result string;
  gtts_save : string → result string;
  read_bytes : string → option string;
  exception_str : nat → string → string;
  broadcast_system_prompt : string;
  news_script_system_prompt : string
}.

(** Two newlines, the paragraph break the prompts are laid out with. *)
Definition nlnl : string := nl +:+ nl.

(** Python's [bool(d)] for a dictionary. *)
Definition dict_truthy {V} (d : gmap string V) : bool := bool_decide (d ≠ ∅).

(** [d.get(key, {})] *)
Definition get_dict {V} (d : gmap string (gmap string V)) (key : string)
  : gmap string V := default ∅ (d !! key).

(** [d.get(key, "")] *)
Definition get_str (d : gmap string string) (key : string) : string :=
  default EmptyString (d !! key).

Section Pipeline.

Context (w : World) (env : environ).

(** [str(e)] *)
Definition str (e : exn) : string :=
  match e with
  | HTTPException status_code detail => exception_str w status_code detail
  | Exception msg => msg
  end.

(** *** [utils.py]: the two LLM calls *)

(** [full_prompt] of [summarize_with_gemini_news_script] *)
Definition news_script_prompt (headlines : string) : string :=
  news_script_system_prompt w +:+ nlnl +:+ "Headlines to summarize:"
    +:+ nl +:+ headlines.

Definition summarize_with_gemini_news_script
    (api_key : option string) (headlines : string) : M string :=
  try_catch
    (let full_prompt := news_script_prompt headlines in
     call (CallGemini 1000 full_prompt) (generate_content w 1000 full_prompt))
    (fun e => raise (HTTPException 500 ("Gemini API error: " +:+ str e))).

(** The body of the [for topic in topics] loop of [generate_broadcast_news]:
    the context block it appends to [topic_blocks]. *)
Definition topic_block (news_data reddit_data : dataset) (topic : string)
  : string :=
  let news_content :=
    if dict_truthy news_data && bool_decide (is_Some (news_data !! "news_analysis"))
    then
      let news_content := get_str (get_dict news_data "news_analysis") topic in
      if PyStr.startswith news_content "Error:" then EmptyString
      else news_content
    else EmptyString in
  let reddit_content :=
    if dict_truthy reddit_data
       && bool_decide (is_Some (reddit_data !! "reddit_analysis"))
    then get_str (get_dict reddit_data "reddit_analysis") topic
    else EmptyString in
  let context := [] in
  let context :=
    if PyStr.truthy news_content
    then context ++ ["OFFICIAL NEWS CONTENT:" +:+ nl +:+ news_content]
    else context in
  let context :=
    if PyStr.truthy reddit_content
    then context ++ ["REDDIT DISCUSSION CONTENT:" +:+ nl +:+ reddit_content]
    else context in
  match context with
  | _ :: _ => ("TOPIC: " +:+ topic +:+ nlnl) +:+ PyStr.join nlnl context
  | [] =>
      ("TOPIC: " +:+ topic +:+ nlnl)
        +:+ "LIMITED DATA: No current news or Reddit data available for this topic."
  end.

(** [topic_blocks] when the loop ends. *)
Definition topic_blocks (news_data reddit_data : dataset) (topics : list string)
  : list string :=
  fold_left (fun blocks topic => blocks ++ [topic_block news_data reddit_data topic])
            topics [].

Definition user_prompt (news_data reddit_data : dataset) (topics : list string)
  : string :=
  match topic_blocks news_data reddit_data topics with
  | [] =>
      "Create a brief news segment explaining that current data for topics "
        +:+ PyStr.join ", " topics
        +:+ " is temporarily unavailable, but provide general context about why these topics are newsworthy."
  | blocks =>
      ("Create broadcast segments for these topics using available sources:" +:+ nlnl)
        +:+ PyStr.join (nlnl +:+ "--- NEW TOPIC ---" +:+ nlnl) blocks
  end.

Definition fallback_script (topics : list string) : string :=
  "Welcome to your news update. Today we're covering "
    +:+ PyStr.join ", " topics
    +:+ ". Unfortunately, we're experiencing technical difficulties accessing current news data. Please check back later for updated information on these important topics.".

(** [full_prompt] of [generate_broadcast_news] *)
Definition broadcast_prompt (news_data reddit_data : dataset)
    (topics : list string) : string :=
  broadcast_system_prompt w +:+ nlnl +:+ user_prompt news_data reddit_data topics.

Definition generate_broadcast_news
    (api_key : option string) (news_data reddit_data : dataset)
    (topics : list string) : M string :=
  try_catch
    (let full_prompt := broadcast_prompt news_data reddit_data topics in
     call (CallGemini 4000 full_prompt) (generate_content w 4000 full_prompt))
    (fun e => ret (fallback_script topics)).

(** [tts_to_audio]: gTTS writes the file and its path comes back. *)
Definition tts_to_audio (text : string) : M string :=
  try_catch
    (call (CallTTS text) (gtts_save w text))
    (fun e => raise (Exception ("gTTS failed: " +:+ str e))).

(** *** [free_news_scraper.py] *)

Record FreeNewsScraper : Type := { api_key : option string; base_url : string }.

(** [FreeNewsScraper.__init__] *)
Definition FreeNewsScraper_init : FreeNewsScraper :=
  {| api_key := env !! "NEWSAPI_KEY";
     base_url := "https://newsapi.org/v2/everything" |}.

(** Truthiness of [self.api_key]. *)
Definition has_api_key (self : FreeNewsScraper) : bool :=
  from_option PyStr.truthy false (api_key self).

(** The placeholder paragraph [_create_mock_news] writes for a topic. *)
Definition mock_paragraph (topic : string) : string :=
  "Recent developments in " +:+ topic
    +:+ " continue to evolve. Industry experts are monitoring the situation closely as new information becomes available.".

Definition _create_mock_news (self : FreeNewsScraper) (topics : list string)
  : dataset :=
  let mock_news :=
    fold_left (fun mock_news topic => <[topic := mock_paragraph topic]> mock_news)
              topics (∅ : gmap string string) in
  {[ "news_analysis" := mock_news ]}.

(** The loop over [articles] that collects [headlines]. *)
Definition article_headlines (articles : list article) : list string :=
  fold_left
    (fun headlines article =>
       let title := default EmptyString (title article) in
       let description := default EmptyString (description article) in
       if PyStr.truthy title
       then headlines
              ++ [if PyStr.truthy description
                  then title +:+ ". " +:+ description else title]
       else headlines)
    articles [].

(** One turn of [for topic in topics] in [scrape_news]: the [try] block and
    its [except Exception] handler, on the dictionary [results]. *)
Definition scrape_topic (self : FreeNewsScraper) (results : gmap string string)
    (topic : string) : M (gmap string string) :=
  try_catch
    (let* response :=
       call (HttpGet (base_url self) (default EmptyString (api_key self)) topic)
            (requests_get w (base_url self)
                          (default EmptyString (api_key self)) topic) in
     if status_code response =? 200 then
       let* data := (json response, []) in
       let articles := default [] (articles data) in
       match articles with
       | _ :: _ =>
           let headlines := article_headlines articles in
           let headlines_text := PyStr.join nl headlines in
           let* summary :=
             summarize_with_gemini_news_script (env !! "GEMINI_API_KEY")
                                               headlines_text in
           ret (<[topic := summary]> results)
       | [] => ret (<[topic := "No recent news found for " +:+ topic]> results)
       end
     else if status_code response =? 429 then
       ret (<[topic := "Rate limit exceeded for " +:+ topic +:+ " news"]> results)
     else
       ret (<[topic := "Error fetching " +:+ topic +:+ " news"]> results))
    (fun e => ret (<[topic := "Error: " +:+ str e]> results)).

(** What one turn of the loop stores for a topic, case by case: the summary
    when the fetch and the summarization succeed, a stub otherwise. *)
Inductive topic_entry (self : FreeNewsScraper) (topic : string) : string → Prop :=
| entry_summary response data first rest summary :
    requests_get w (base_url self) (default EmptyString (api_key self)) topic
    = Ok response →
    status_code response = 200 →
    json response = Ok data →
    default [] (articles data) = first :: rest →
    generate_content w 1000
      (news_script_prompt (PyStr.join nl (article_headlines (first :: rest))))
    = Ok summary →
    topic_entry self topic summary
| entry_no_articles response data :
    requests_get w (base_url self) (default EmptyString (api_key self)) topic
    = Ok response →
    status_code response = 200 →
    json response = Ok data →
    default [] (articles data) = [] →
    topic_entry self topic ("No recent news found for " +:+ topic)
| entry_rate_limit response :
    requests_get w (base_url self) (default EmptyString (api_key self)) topic
    = Ok response →
    status_code response = 429 →
    topic_entry self topic ("Rate limit exceeded for " +:+ topic +:+ " news")
| entry_bad_status response :
    requests_get w (base_url self) (default EmptyString (api_key self)) topic
    = Ok response →
    status_code response ≠ 200 →
    status_code response ≠ 429 →
    topic_entry self topic ("Error fetching " +:+ topic +:+ " news")
| entry_request_error e :
    requests_get w (base_url self) (default EmptyString (api_key self)) topic
    = Raise e →
    topic_entry self topic ("Error: " +:+ str e)
| entry_json_error response e :
    requests_get w (base_url self) (default EmptyString (api_key self)) topic
    = Ok response →
    status_code response = 200 →
    json response = Raise e →
    topic_entry self topic ("Error: " +:+ str e)
| entry_summary_error response data first rest e :
    requests_get w (base_url self) (default EmptyString (api_key self)) topic
    = Ok response →
    status_code response = 200 →
    json response = Ok data →
    default [] (articles data) = first :: rest →
    generate_content w 1000
      (news_script_prompt (PyStr.join nl (article_headlines (first :: rest))))
    = Raise e →
    topic_entry self topic
      ("Error: " +:+ str (HTTPException 500 ("Gemini API error: " +:+ str e))).

(** [FreeNewsScraper.scrape_news] *)
Definition scrape_news (self : FreeNewsScraper) (topics : list string)
  : M dataset :=
  let results : gmap string string := ∅ in
  if negb (has_api_key self) then
    ret (_create_mock_news self topics)
  else
    let* results := for_each (scrape_topic self) topics results in
    ret {[ "news_analysis" := results ]}.

(** *** [backend.py] *)

(** The guards of the two content providers. *)
Definition brightdata_eligible : bool :=
  env_set env "BRIGHTDATA_API_KEY" && env_set env "BRIGHTDATA_WEB_UNLOCKER_ZONE".

Definition newsapi_eligible : bool := env_set env "NEWSAPI_KEY".

Definition no_source_detail : string :=
  "No valid news sources configured. Please set up BRIGHTDATA_API_KEY + BRIGHTDATA_WEB_UNLOCKER_ZONE or NEWSAPI_KEY".

(** [get_news_data]: a [return] inside a [try] is [Some], falling through
    to the next option is [None]. *)
Definition get_news_data (topics : list string) : M dataset :=
  let* first_choice :=
    if brightdata_eligible then
      try_catch
        (let* data := call (Invoke BrightData topics)
                           (news_scraper_scrape_news w topics) in
         ret (Some data))
        (fun e => ret None)
    else ret None in
  match first_choice with
  | Some data => ret data
  | None =>
      let* second_choice :=
        if newsapi_eligible then
          try_catch
            (let news_scraper := FreeNewsScraper_init in
             let* _ := call (Invoke NewsAPI topics) (Ok ()) in
             let* data := scrape_news news_scraper topics in
             ret (Some data))
            (fun e => ret None)
        else ret None in
      match second_choice with
      | Some data => ret data
      | None => raise (HTTPException 503 no_source_detail)
      end
  end.

(** The request body ([models.NewsRequest]) and the answer. *)
Record NewsRequest : Type := { topics : list string; source_type : string }.

Record Response : Type := { content : string; media_type : string }.

(** Lines 55-60 of the handler: the content category. *)
Definition collect_news (request : NewsRequest) (results : gmap string dataset)
  : M (gmap string dataset) :=
  if bool_decide (source_type request ∈ ["news"; "both"]) then
    let* news := get_news_data (topics request) in
    ret (<["news" := news]> results)
  else ret results.

(** Lines 63-71 of the handler: the discussion category. *)
Definition collect_reddit (request : NewsRequest) (results : gmap string dataset)
  : M (gmap string dataset) :=
  if bool_decide (source_type request ∈ ["reddit"; "both"]) then
    try_catch
      (let* reddit := call (Invoke Reddit (topics request))
                           (scrape_reddit_topics w (topics request)) in
       ret (<["reddit" := reddit]> results))
      (fun e => ret (<["reddit" := ∅]> results))
  else ret results.

(** Lines 83-111: the script, then the audio. *)
Definition summarize_and_render (request : NewsRequest)
    (news_data reddit_data : dataset) : M Response :=
  let* news_summary :=
    generate_broadcast_news (env !! "GEMINI_API_KEY") news_data reddit_data
                            (topics request) in
  if PyStr.truthy news_summary then
    let* audio_path := tts_to_audio news_summary in
    match (if PyStr.truthy audio_path then read_bytes w audio_path else None) with
    | Some audio_bytes =>
        let* _ := call (ReadFile audio_path) (Ok ()) in
        ret {| content := audio_bytes; media_type := "audio/mpeg" |}
    | None => raise (HTTPException 500 "Failed to generate audio file")
    end
  else raise (HTTPException 500 "Failed to generate news script").

(** The handler of [POST /generate-news-audio]. *)
Definition generate_news_audio (request : NewsRequest) : M Response :=
  try_catch
    (let results : gmap string dataset := ∅ in
     let* results := collect_news request results in
     let* results := collect_reddit request results in
     let news_data := get_dict results "news" in
     let reddit_data := get_dict results "reddit" in
     if negb (dict_truthy news_data) && negb (dict_truthy reddit_data) then
       raise (HTTPException 503 "Unable to collect any data from configured sources")
     else summarize_and_render request news_data reddit_data)
    (fun e => raise (HTTPException 500 (str e))).

(** What [GET /health] answers. *)
Record Health : Type := {
  status : string;
  message : string;
  news_source : string;
  features : list string;
  setup_instructions : list (string * string)
}.

Definition health_check : Health :=
  let features : list string := [] in
  let '(news_source, features) :=
    if env_set env "BRIGHTDATA_API_KEY" && env_set env "BRIGHTDATA_WEB_UNLOCKER_ZONE"
    then ("brightdata", features ++ ["real_news_brightdata"])
    else if env_set env "NEWSAPI_KEY"
    then ("newsapi", features ++ ["real_news_newsapi"])
    else ("none_configured", features ++ ["no_news_source"]) in
  let features :=
    if env_set env "API_TOKEN" && env_set env "WEB_UNLOCKER_ZONE"
    then features ++ ["reddit_scraping"] else features in
  let features :=
    if env_set env "GEMINI_API_KEY" then features ++ ["gemini_ai"] else features in
  let status :=
    if bool_decide (news_source ≠ "none_configured") then "healthy" else "degraded" in
  {| status := status;
     message := if bool_decide (status = "healthy")
                then "NewsNinja Backend is running"
                else "NewsNinja Backend - No news sources configured";
     news_source := news_source;
     features := features;
     setup_instructions :=
       [("brightdata", "Add BRIGHTDATA_API_KEY + BRIGHTDATA_WEB_UNLOCKER_ZONE for premium news");
        ("newsapi", "Add NEWSAPI_KEY for free news (100 requests/day)");
        ("reddit", "Add API_TOKEN + WEB_UNLOCKER_ZONE for Reddit data")] |}.

End Pipeline.

(** ** Sample worlds and environments *)

Definition one_article : response :=
  {| status_code := 200;
     json := Ok {| articles :=
                     Some [{| title := Some "Chip makers rally";
                              description := Some "Shares rose" |}] |} |}.

(** Every service is down. *)
Definition world_down : World :=
  {| news_scraper_scrape_news := fun _ => Raise (Exception "BrightData unreachable");
     scrape_reddit_topics := fun _ => Raise (Exception "Reddit unreachable");
     requests_get := fun _ _ _ => Raise (Exception "connection refused");
     generate_content := fun _ _ => Raise (Exception "quota exceeded");
     gtts_save := fun _ => Raise (Exception "no network");
     read_bytes := fun _ => None;
     exception_str := fun _ detail => detail;
     broadcast_system_prompt := "You are broadcast_news_writer.";
     news_script_system_prompt := "You are my personal news editor." |}.

(** Every service answers. *)
Definition world_up : World :=
  {| news_scraper_scrape_news :=
       fun topics => Ok {[ "news_analysis" := list_to_map ((fun t => (t, "Premium report")) <$> topics) ]};
     scrape_reddit_topics :=
       fun topics => Ok {[ "reddit_analysis" := list_to_map ((fun t => (t, "Users are excited")) <$> topics) ]};
     requests_get := fun _ _ _ => Ok one_article;
     generate_content := fun _ _ => Ok "Good evening.";
     gtts_save := fun _ => Ok "audio/tts_20240101_000000.mp3";
     read_bytes := fun _ => Some "ID3";
     exception_str := fun _ detail => detail;
     broadcast_system_prompt := "You are broadcast_news_writer.";
     news_script_system_prompt := "You are my personal news editor." |}.

(** Only the discussion source and the stages after it answer. *)
Definition world_reddit_only : World :=
  {| news_scraper_scrape_news := fun _ => Raise (Exception "BrightData unreachable");
     scrape_reddit_topics := scrape_reddit_topics world_up;
     requests_get := fun _ _ _ => Raise (Exception "connection refused");
     generate_content := generate_content world_up;
     gtts_save := gtts_save world_up;
     read_bytes := read_bytes world_up;
     exception_str := fun _ detail => detail;
     broadcast_system_prompt := "You are broadcast_news_writer.";
     news_script_system_prompt := "You are my personal news editor." |}.

(** As [world_up], with the discussion source down. *)
Definition world_no_reddit : World :=
  {| news_scraper_scrape_news := news_scraper_scrape_news world_up;
     scrape_reddit_topics := fun _ => Raise (Exception "Reddit unreachable");
     requests_get := requests_get world_up;
     generate_content := generate_content world_up;
     gtts_save := gtts_save world_up;
     read_bytes := read_bytes world_up;
     exception_str := fun _ detail => detail;
     broadcast_system_prompt := "You are broadcast_news_writer.";
     news_script_system_prompt := "You are my personal news editor." |}.

Definition env_brightdata : environ :=
  {[ "BRIGHTDATA_API_KEY" := "bd-key"; "BRIGHTDATA_WEB_UNLOCKER_ZONE" := "zone1" ]}.

Definition env_newsapi : environ := {[ "NEWSAPI_KEY" := "na-key" ]}.

Definition env_all : environ :=
  {[ "BRIGHTDATA_API_KEY" := "bd-key"; "BRIGHTDATA_WEB_UNLOCKER_ZONE" := "zone1";
     "NEWSAPI_KEY" := "na-key" ]}.

(** ** Reading a log *)

(** The topics queried over HTTP, in the order of the queries. *)
Definition http_queries (log : list event) : list string :=
  omap (fun ev => match ev with HttpGet _ _ q => Some q | _ => None end) log.

(** The calls the free scraper makes: NewsAPI queries and the news-script
    LLM call. *)
Definition scraper_event (ev : event) : bool :=
  match ev with
  | HttpGet _ _ _ => true
  | CallGemini max_output_tokens _ => max_output_tokens =? 1000
  | _ => false
  end.

(** What the content category may record. *)
Definition content_event (ev : event) : bool :=
  match ev with
  | Invoke BrightData _ | Invoke NewsAPI _ => true
  | _ => scraper_event ev
  end.

(** What the script and audio stage may record. *)
Definition render_event (ev : event) : bool :=
  match ev with
  | CallGemini max_output_tokens _ => max_output_tokens =? 4000
  | CallTTS _ | ReadFile _ => true
  | _ => false
  end.

(** NewsAPI answers with one article that has a description and no title;
    everything else is as in [world_up]. *)
Definition world_untitled : World :=
  {| news_scraper_scrape_news := news_scraper_scrape_news world_up;
     scrape_reddit_topics := scrape_reddit_topics world_up;
     requests_get :=
       fun _ _ _ =>
         Ok {| status_code := 200;
               json := Ok {| articles :=
                               Some [{| title := None;
                                        description := Some "Shares rose" |}] |} |};
     generate_content := generate_content world_up;
     gtts_save := gtts_save world_up;
     read_bytes := read_bytes world_up;
     exception_str := fun _ detail => detail;
     broadcast_system_prompt := "You are broadcast_news_writer.";
     news_script_system_prompt := "You are my personal news editor." |}.

(** The call to the discussion source. *)
Definition reddit_event (ev : event) : bool :=
  match ev with
  | Invoke Reddit _ => true
  | _ => false
  end.

(** As [world_up], with an LLM that answers with the empty string. *)
Definition world_mute : World :=
  {| news_scraper_scrape_news := news_scraper_scrape_news world_up;
     scrape_reddit_topics := scrape_reddit_topics world_up;
     requests_get := requests_get world_up;
     generate_content := fun _ _ => Ok EmptyString;
     gtts_save := gtts_save world_up;
     read_bytes := read_bytes world_up;
     exception_str := fun _ detail => detail;
     broadcast_system_prompt := "You are broadcast_news_writer.";
     news_script_system_prompt := "You are my personal news editor." |}.

(** ** [utils.py]: search URLs *)

(** The bytes [urllib.parse.quote] never escapes: letters, digits and
    [_.-~]. *)
Definition always_safe (c : ascii) : bool :=
  let n := nat_of_ascii c in
  ((48 <=? n) && (n <=? 57)) || ((65 <=? n) && (n <=? 90))
  || ((97 <=? n) && (n <=? 122))
  || (n =? 95) || (n =? 46) || (n =? 45) || (n =? 126).

(** One upper-case hexadecimal digit. *)
Definition hex_digit (n : nat) : ascii :=
  nth n (list_ascii_of_string "0123456789ABCDEF") "0"%char.

(** ['%{:02X}'.format(b)] *)
Definition percent_encode (b : nat) : string :=
  String "%"%char (String (hex_digit (b / 16)) (String (hex_digit (b mod 16)) EmptyString)).

(** The UTF-8 encoding of a code point below 256. *)
Definition utf8_bytes (c : ascii) : list nat :=
  let n := nat_of_ascii c in
  if n <? 128 then [n] else [192 + n / 64; 128 + n mod 64].

(** What [quote_plus] writes for one character: itself when it is always
    safe, a plus sign for a space, and its UTF-8 bytes percent-encoded
    otherwise. *)
Definition quote_char (c : ascii) : string :=
  if always_safe c then String c EmptyString
  else if Ascii.eqb c " "%char then "+"
  else fold_right (fun b rest => percent_encode b +:+ rest) EmptyString (utf8_bytes c).

(** [urllib.parse.quote_plus(s)] *)
Fixpoint quote_plus (s : string) : string :=
  match s with
  | EmptyString => EmptyString
  | String c s' => quote_char c +:+ quote_plus s'
  end.

Definition generate_valid_news_url (keyword : string) : string :=
  "https://news.google.com/search?q=" +:+ quote_plus keyword +:+ "&tbs=sbd:1".

Definition generate_news_urls_to_scrape (list_of_keywords : list string)
  : gmap string string :=
  fold_left (fun valid_urls_dict keyword =>
               <[keyword := generate_valid_news_url keyword]> valid_urls_dict)
            list_of_keywords ∅.

(** The characters a quoted keyword is made of. *)
Definition query_char (c : ascii) : bool :=
  always_safe c || Ascii.eqb c "+"%char || Ascii.eqb c "%"%char.

(** Every character of [s] passes [p]. *)
Fixpoint all_chars (p : ascii → bool) (s : string) : bool :=
  match s with
  | EmptyString => true
  | String c s' => p c && all_chars p s'
  end.

(** The value of a hexadecimal digit. *)
Definition hex_value (c : ascii) : option nat :=
  let n := nat_of_ascii c in
  if (48 <=? n) && (n <=? 57) then Some (n - 48)
  else if (65 <=? n) && (n <=? 70) then Some (n - 55)
  else None.

(** Reads back the first character of a quoted string and what follows it:
    the inverse of [quote_char], by which [quote_plus] is shown to lose
    nothing. *)
Definition unquote_head (s : string) : option (ascii * string) :=
  match s with
  | EmptyString => None
  | String "%"%char (String h1 (String h2 rest)) =>
      match hex_value h1, hex_value h2 with
      | Some a, Some b =>
          let lead := 16 * a + b in
          if lead <? 128 then Some (ascii_of_nat lead, rest)
          else
            match rest with
            | String "%"%char (String h3 (String h4 rest')) =>
                match hex_value h3, hex_value h4 with
                | Some a', Some b' =>
                    Some (ascii_of_nat ((lead - 192) * 64 + (16 * a' + b' - 128)), rest')
                | _, _ => None
                end
            | _ => None
            end
      | _, _ => None
      end
  | String "+"%char rest => Some (" "%char, rest)
  | String c rest => Some (c, rest)
  end.

(** The providers a log shows to have been invoked, in order. *)
Definition invoked_providers (log : list event) : list provider :=
  omap (fun ev => match ev with Invoke p _ => Some p | _ => None end) log.

(** ** [frontend.py]: the topic list of a session *)

(** What the user can do to the topic list: press Add with some text in the
    input box, or press the remove button of a row. *)
Inductive ui_action : Type :=
| ClickAdd (new_topic : string)
| ClickRemove (i : nat).

(** [if add_clicked and new_topic.strip(): topics.append(new_topic.strip())] *)
Definition click_add (new_topic : string) (session_topics : list string)
  : list string :=
  if PyStr.truthy (PyStr.strip new_topic)
  then session_topics ++ [PyStr.strip new_topic]
  else session_topics.

(** [topics.pop(i)]; a remove button exists for the rows of the list only,
    and [pop] raises [IndexError] elsewhere ([None]). *)
Definition click_remove (i : nat) (session_topics : list string)
  : option (list string) :=
  if i <? length session_topics then Some (delete i session_topics) else None.

Definition ui_step (session_topics : list string) (action : ui_action)
  : option (list string) :=
  match action with
  | ClickAdd new_topic => Some (click_add new_topic session_topics)
  | ClickRemove i => click_remove i session_topics
  end.

(** A session from its first run on, one rerun per action. *)
Fixpoint ui_run (actions : list ui_action) (session_topics : list string)
  : option (list string) :=
  match actions with
  | [] => Some session_topics
  | action :: actions' =>
      match ui_step session_topics action with
      | Some session_topics' => ui_run actions' session_topics'
      | None => None
      end
  end.

(** The Generate button: disabled while the list is empty, else it posts
    the topics and the selected source. *)
Definition click_generate (source_type : string) (session_topics : list string)
  : option NewsRequest :=
  match session_topics with
  | [] => None
  | _ :: _ => Some {| topics := session_topics; source_type := source_type |}
  end.

(** ** [check_env.py] *)

Definition required_vars : list (string * string) :=
  [("GEMINI_API_KEY", "Gemini API Key");
   ("BRIGHTDATA_API_KEY", "BrightData API Key");
   ("BRIGHTDATA_WEB_UNLOCKER_ZONE", "BrightData Web Unlocker Zone");
   ("API_TOKEN", "BrightData API Token (for Reddit)");
   ("WEB_UNLOCKER_ZONE", "Web Unlocker Zone (for Reddit)");
   ("ELEVEN_API_KEY", "ElevenLabs API Key (optional)")].

(** [value[:10] + "..." if len(value) > 10 else value] *)
Definition masked_value (value : string) : string :=
  if 10 <? String.length value then String.substring 0 10 value +:+ "..."
  else value.

(** The loop over [required_vars]: for each variable the masked value it
    prints, or [None] for NOT FOUND, and the flag [all_good]. *)
Definition check_env (env : environ) : list (string * option string) * bool :=
  fold_left
    (fun '(report, all_good) '(var_name, description) =>
       match env !! var_name with
       | Some (String c value') =>
           (report ++ [(var_name, Some (masked_value (String c value')))], all_good)
       | _ => (report ++ [(var_name, None)], false)
       end)
    required_vars ([], true).

(** Every variable the check asks for is set. *)
Definition env_complete : environ :=
  {[ "GEMINI_API_KEY" := "g-key"; "BRIGHTDATA_API_KEY" := "bd-key";
     "BRIGHTDATA_WEB_UNLOCKER_ZONE" := "zone1"; "API_TOKEN" := "token";
     "WEB_UNLOCKER_ZONE" := "zone2"; "ELEVEN_API_KEY" := "el-key" ]}.

(** * Properties *)

(** ** The model on small inputs *)

Example strip_both_ends : PyStr.strip "  top story  " = "top story".
Proof. reflexivity. Qed.

Example split_keeps_empty_pieces :
  PyStr.split newline ("a" +:+ nl +:+ nl +:+ "b" +:+ nl) = ["a"; ""; "b"; ""].
Proof. reflexivity. Qed.

Example join_with_commas : PyStr.join ", " ["AI"; "Space"; "Oil"] = "AI, Space, Oil".
Proof. reflexivity. Qed.

Example headlines_skip_blank_lines :
  extract_headlines ("  Markets fall " +:+ nl +:+ "   " +:+ nl +:+ "Reuters"
                       +:+ nl +:+ " More" +:+ nl +:+ "Rain expected")
  = "Markets fall" +:+ nl +:+ "Rain expected".
Proof. reflexivity. Qed.

Example headlines_of_sentinels_only :
  extract_headlines ("More" +:+ nl +:+ "More") = "".
Proof. reflexivity. Qed.

Example error_marker_is_dropped :
  topic_block {[ "news_analysis" := {[ "AI" := "Error: connection refused" ]} ]} ∅ "AI"
  = "TOPIC: AI" +:+ nlnl
      +:+ "LIMITED DATA: No current news or Reddit data available for this topic.".
Proof. reflexivity. Qed.

Example stub_without_colon_is_kept :
  topic_block {[ "news_analysis" := {[ "AI" := "Error fetching AI news" ]} ]} ∅ "AI"
  = "TOPIC: AI" +:+ nlnl +:+ "OFFICIAL NEWS CONTENT:" +:+ nl
      +:+ "Error fetching AI news".
Proof. reflexivity. Qed.

Example scraper_records_the_failure :
  outcome (scrape_news world_down env_newsapi (FreeNewsScraper_init env_newsapi)
                       ["AI"; "Space"])
  = Ok {[ "news_analysis" := {[ "AI" := "Error: connection refused";
                                "Space" := "Error: connection refused" ]} ]}.
Proof. reflexivity. Qed.

Example health_of_empty_environment :
  status (health_check ∅) = "degraded"
  ∧ news_source (health_check ∅) = "none_configured"
  ∧ features (health_check ∅) = ["no_news_source"].
Proof. repeat split. Qed.

Example news_only_request_succeeds :
  outcome (generate_news_audio world_up env_newsapi
             {| topics := ["AI"]; source_type := "news" |})
  = Ok {| content := "ID3"; media_type := "audio/mpeg" |}.
Proof. reflexivity. Qed.

(** Unfold the monad and tidy the logs. *)
Ltac run_effects :=
  cbv beta iota delta [bind try_catch call ret raise outcome log_of fst snd];
  rewrite ?app_nil_r, <- ?app_assoc.

(** ** Strings *)

Section StringFacts.

Import PyStr.

Lemma append_cons (c : ascii) (s t : string) :
  String c s +:+ t = String c (s +:+ t).
Proof. reflexivity. Qed.

Lemma append_nil_l (t : string) : EmptyString +:+ t = t.
Proof. reflexivity. Qed.

Lemma append_nil_r (s : string) : s +:+ EmptyString = s.
Proof. induction s as [|c s IH]; [reflexivity|]. by rewrite append_cons, IH. Qed.

Lemma append_assoc (s t u : string) : (s +:+ t) +:+ u = s +:+ (t +:+ u).
Proof.
  induction s as [|c s IH]; [reflexivity|].
  by rewrite !append_cons, IH.
Qed.

Lemma truthy_true (s : string) : truthy s = true ↔ s ≠ EmptyString.
Proof. destruct s; simpl; split; intros; congruence. Qed.

Lemma append_truthy_l (s t : string) : truthy s = true → truthy (s +:+ t) = true.
Proof. destruct s; [discriminate|reflexivity]. Qed.

Lemma contains_refl (s : string) : contains s s.
Proof. exists EmptyString, EmptyString. by rewrite append_nil_l, append_nil_r. Qed.

Lemma contains_app_l (s t sub : string) : contains t sub → contains (s +:+ t) sub.
Proof.
  intros (pre & post & ->). exists (s +:+ pre), post. by rewrite append_assoc.
Qed.

Lemma contains_app_r (s t sub : string) : contains s sub → contains (s +:+ t) sub.
Proof.
  intros (pre & post & ->). exists pre, (post +:+ t). by rewrite !append_assoc.
Qed.

(** Every element of a joined list occurs in the joined string. *)
Lemma contains_join (sep : string) (l : list string) (x : string) :
  x ∈ l → contains (join sep l) x.
Proof.
  induction l as [|y l IH]; [by intros ?%elem_of_nil|].
  intros [->|Hin]%elem_of_cons.
  - destruct l; [apply contains_refl|]. apply contains_app_r, contains_refl.
  - destruct l as [|z l]; [by apply elem_of_nil in Hin|].
    change (contains (y +:+ sep +:+ join sep (z :: l)) x).
    by apply contains_app_l, contains_app_l, IH.
Qed.

(** *** [strip] *)

Lemma lstrip_lstripped (s : string) : lstripped (lstrip s).
Proof.
  induction s as [|c s IH]; simpl; [done|].
  destruct (isspace c) eqn:Hc; [done|]. exact Hc.
Qed.

Lemma lstrip_fixed (s : string) : lstripped s → lstrip s = s.
Proof. destruct s as [|c s]; simpl; [done|]. by intros ->. Qed.

Lemma rstrip_lstripped (s : string) : lstripped s → lstripped (rstrip s).
Proof.
  destruct s as [|c s]; simpl; [done|]. intros Hc.
  destruct (rstrip s); simpl; [by rewrite Hc|done].
Qed.

Lemma rstrip_idem (s : string) : rstrip (rstrip s) = rstrip s.
Proof.
  induction s as [|c s IH]; simpl; [done|].
  destruct (rstrip s) as [|d r] eqn:Hr.
  - destruct (isspace c) eqn:Hc; simpl; [done|]. by rewrite Hc.
  - change (rstrip (String c (String d r))) with
      (match rstrip (String d r) with
       | EmptyString => if isspace c then EmptyString else String c EmptyString
       | r' => String c r'
       end).
    by rewrite IH.
Qed.

Lemma strip_idem (s : string) : strip (strip s) = strip s.
Proof.
  unfold strip.
  rewrite (lstrip_fixed (rstrip (lstrip s)))
    by apply rstrip_lstripped, lstrip_lstripped.
  apply rstrip_idem.
Qed.

Lemma has_char_lstrip (c : ascii) (s : string) :
  has_char c s = false → has_char c (lstrip s) = false.
Proof.
  induction s as [|d s IH]; simpl; [done|].
  intros [Hd Hs]%orb_false_iff.
  destruct (isspace d); [by apply IH|]. simpl. by rewrite Hd, Hs.
Qed.

Lemma has_char_rstrip (c : ascii) (s : string) :
  has_char c s = false → has_char c (rstrip s) = false.
Proof.
  induction s as [|d s IH]; simpl; [done|].
  intros [Hd Hs]%orb_false_iff. specialize (IH Hs).
  destruct (rstrip s) as [|e r].
  - destruct (isspace d); simpl; [done|]. by rewrite Hd.
  - simpl in *. by rewrite Hd, IH.
Qed.

Lemma has_char_strip (c : ascii) (s : string) :
  has_char c s = false → has_char c (strip s) = false.
Proof. intros H. by apply has_char_rstrip, has_char_lstrip. Qed.

(** *** [split] and [join] *)

Lemma split_not_nil (sep : ascii) (s : string) : split sep s ≠ [].
Proof.
  induction s as [|c s IH]; simpl; [done|].
  destruct (Ascii.eqb c sep); [done|]. by destruct (split sep s).
Qed.

(** No piece of a split holds the separator. *)
Lemma split_no_sep (sep : ascii) (s : string) :
  Forall (fun piece => has_char sep piece = false) (split sep s).
Proof.
  induction s as [|c s IH]; simpl; [by repeat constructor|].
  destruct (Ascii.eqb c sep) eqn:Hc; [by constructor|].
  destruct (split sep s) as [|p ps]; [by repeat constructor; simpl; rewrite Hc|].
  inversion_clear IH as [|? ? Hp Hps]. constructor; [|done].
  simpl. by rewrite Hc, Hp.
Qed.

Lemma split_no_sep_id (sep : ascii) (s : string) :
  has_char sep s = false → split sep s = [s].
Proof.
  induction s as [|c s IH]; simpl; [done|].
  intros [Hc Hs]%orb_false_iff. by rewrite Hc, (IH Hs).
Qed.

Lemma split_app_sep (sep : ascii) (s rest : string) :
  has_char sep s = false →
  split sep (s +:+ String sep rest) = s :: split sep rest.
Proof.
  induction s as [|c s IH]; intros Hs.
  - rewrite append_nil_l. simpl. by rewrite Ascii.eqb_refl.
  - simpl in Hs. apply orb_false_iff in Hs as [Hc Hs].
    rewrite append_cons. simpl. by rewrite Hc, (IH Hs).
Qed.

(** Splitting undoes joining when no element holds the separator. *)
Lemma split_join (sep : ascii) (x : string) (l : list string) :
  Forall (fun piece => has_char sep piece = false) (x :: l) →
  split sep (join (String sep EmptyString) (x :: l)) = x :: l.
Proof.
  revert x. induction l as [|y l IH]; intros x Hall.
  - inversion_clear Hall. by apply split_no_sep_id.
  - inversion_clear Hall as [|? ? Hx Hl].
    change (join (String sep EmptyString) (x :: y :: l))
      with (x +:+ String sep EmptyString +:+ join (String sep EmptyString) (y :: l)).
    rewrite append_cons, append_nil_l, split_app_sep by done.
    by rewrite IH.
Qed.

End StringFacts.

(** ** Headline extraction *)

Section Headlines.

Import PyStr.

(** The loop only ever moves lines that are not the sentinel into the block,
    and only block heads into [headlines]. *)
Lemma headline_loop_invariant (R : string → Prop) (lines : list string) :
  ∀ headlines current_block,
    Forall R lines →
    Forall (fun h => R h ∧ h ≠ sentinel) headlines →
    Forall (fun h => R h ∧ h ≠ sentinel) current_block →
    Forall (fun h => R h ∧ h ≠ sentinel)
           (headline_flush (fold_left headline_step lines (headlines, current_block))).
Proof.
  induction lines as [|line lines IH]; intros hs blk Hlines Hhs Hblk.
  - simpl. destruct blk as [|b blk]; [done|].
    inversion_clear Hblk. apply Forall_app; split; [done|by constructor].
  - inversion_clear Hlines as [|? ? Hline Hrest]. simpl.
    destruct (String.eqb line sentinel) eqn:Heq.
    + destruct blk as [|b blk]; [by apply IH|].
      inversion_clear Hblk. apply IH; [done| |done].
      apply Forall_app; split; [done|by constructor].
    + apply String.eqb_neq in Heq. apply IH; [done|done|].
      apply Forall_app; split; [done|by constructor].
Qed.

(** What the list comprehension keeps: stripped, non-empty pieces of the
    split of the input, none of which holds a newline. *)
Lemma stripped_lines_spec (cleaned_text : string) :
  Forall (fun h => h ≠ EmptyString ∧ strip h = h ∧ has_char newline h = false
                   ∧ ∃ line, line ∈ split newline cleaned_text ∧ h = strip line)
         (stripped_lines cleaned_text).
Proof.
  unfold stripped_lines. apply Forall_forall. intros h Hh.
  apply list_elem_of_fmap in Hh as (line & -> & Hline).
  apply list_elem_of_filter in Hline as [Htruthy Hline].
  split; [by apply truthy_true|]. split; [apply strip_idem|]. split.
  - apply has_char_strip.
    by apply (proj1 (Forall_forall _ _) (split_no_sep newline cleaned_text)).
  - by exists line.
Qed.

(** A newline between two texts splits them apart. *)
Lemma split_app (sep : ascii) (a b : string) :
  split sep (a +:+ String sep b) = split sep a ++ split sep b.
Proof.
  induction a as [|c a IH].
  - rewrite append_nil_l. simpl. by rewrite Ascii.eqb_refl.
  - rewrite append_cons. simpl. rewrite IH.
    destruct (Ascii.eqb c sep); [done|].
    pose proof (split_not_nil sep a). by destruct (split sep a).
Qed.

Lemma stripped_lines_app (a b : string) :
  stripped_lines (a +:+ nl +:+ b) = stripped_lines a ++ stripped_lines b.
Proof.
  unfold stripped_lines, nl. rewrite append_cons, append_nil_l, split_app.
  by rewrite filter_app, map_app.
Qed.

(** The headlines found so far play no part in what the loop does next. *)
Lemma headline_loop_acc (lines : list string) :
  ∀ headlines current_block,
    headline_flush (fold_left headline_step lines (headlines, current_block))
    = headlines
        ++ headline_flush (fold_left headline_step lines ([], current_block)).
Proof.
  induction lines as [|line lines IH]; intros hs blk; simpl.
  - destruct blk; simpl; by rewrite ?app_nil_r.
  - destruct (String.eqb line sentinel); [|apply IH].
    destruct blk as [|b blk]; [apply IH|].
    rewrite (IH (hs ++ [b])), (IH ([] ++ [b])). by rewrite <- app_assoc.
Qed.

(** A sentinel line leaves the block empty and the headlines as the final
    flush would have left them. *)
Lemma headline_loop_sentinel (lines : list string) :
  fold_left headline_step (lines ++ [sentinel]) ([], [])
  = (headline_flush (fold_left headline_step lines ([], [])), []).
Proof.
  rewrite fold_left_app. simpl.
  destruct (fold_left headline_step lines ([], [])) as [hs blk].
  simpl. by destruct blk.
Qed.

(** A sentinel line cuts the text in two parts whose headlines are found
    independently. *)
Lemma headlines_of_sentinel (a b : string) :
  headlines_of (a +:+ nl +:+ sentinel +:+ nl +:+ b)
  = headlines_of a ++ headlines_of b.
Proof.
  unfold headlines_of. rewrite !stripped_lines_app.
  change (stripped_lines sentinel) with [sentinel].
  rewrite app_assoc, fold_left_app, headline_loop_sentinel.
  apply headline_loop_acc.
Qed.

Lemma headlines_of_sentinel_end (a : string) :
  headlines_of (a +:+ nl +:+ sentinel) = headlines_of a.
Proof.
  unfold headlines_of. rewrite stripped_lines_app.
  change (stripped_lines sentinel) with [sentinel].
  by rewrite headline_loop_sentinel.
Qed.

(** A block without sentinel gives its first line when the input ends. *)
Lemma headlines_of_block (block first : string) (rest : list string) :
  stripped_lines block = first :: rest →
  Forall (fun line => line ≠ sentinel) (first :: rest) →
  headlines_of block = [first].
Proof.
  intros Hlines Hall. unfold headlines_of. rewrite Hlines.
  assert (∀ lines current_block,
             Forall (fun line => line ≠ sentinel) lines →
             fold_left headline_step lines ([], current_block)
             = ([], current_block ++ lines)) as Hgrow.
  { induction lines as [|line lines IH]; intros blk Hl; simpl.
    - by rewrite app_nil_r.
    - inversion_clear Hl as [|? ? Hline Hrest].
      apply String.eqb_neq in Hline. rewrite Hline, IH by done.
      by rewrite <- app_assoc. }
  by rewrite Hgrow.
Qed.

(** C6: on the text with lines H1, H1b, More, H2, More, More the headlines
    are H1 and H2.  A sentinel line emits the first line of the block and
    empties it, a sentinel line that finds the block empty emits nothing, and
    the block left at the end of the input is flushed: for every text, a
    sentinel line at the end changes nothing, a sentinel line in the middle
    separates two parts whose headlines are found independently, and a
    trailing block without sentinel adds its first line. *)
Theorem extract_headlines_example :
  extract_headlines
    ("H1" +:+ nl +:+ "H1b" +:+ nl +:+ "More" +:+ nl +:+ "H2" +:+ nl
       +:+ "More" +:+ nl +:+ "More")
  = "H1" +:+ nl +:+ "H2"
  ∧ extract_headlines
      ("H1" +:+ nl +:+ "H1b" +:+ nl +:+ "More" +:+ nl +:+ "H2" +:+ nl +:+ "H2b")
    = "H1" +:+ nl +:+ "H2"
  ∧ (∀ text, extract_headlines (text +:+ nl +:+ sentinel) = extract_headlines text)
  ∧ (∀ text,
        extract_headlines (text +:+ nl +:+ sentinel +:+ nl +:+ sentinel)
        = extract_headlines text)
  ∧ (∀ text block,
        extract_headlines (text +:+ nl +:+ sentinel +:+ nl +:+ block)
        = join nl (headlines_of text ++ headlines_of block))
  ∧ (∀ text block first rest,
        stripped_lines block = first :: rest →
        Forall (fun line => line ≠ sentinel) (first :: rest) →
        extract_headlines (text +:+ nl +:+ sentinel +:+ nl +:+ block)
        = join nl (headlines_of text ++ [first]))
  ∧ (∀ headlines first rest,
        headline_step (headlines, first :: rest) sentinel
        = (headlines ++ [first], []))
  ∧ (∀ headlines, headline_step (headlines, []) sentinel = (headlines, []))
  ∧ (∀ headlines first rest,
        headline_flush (headlines, first :: rest) = headlines ++ [first])
  ∧ (∀ headlines, headline_flush (headlines, []) = headlines).
Proof.
  split; [vm_compute; reflexivity|].
  split; [vm_compute; reflexivity|].
  split; [intros text; unfold extract_headlines; by rewrite headlines_of_sentinel_end|].
  split.
  { intros text. unfold extract_headlines.
    rewrite headlines_of_sentinel. change (headlines_of sentinel) with (@nil string).
    by rewrite app_nil_r. }
  split; [intros text block; unfold extract_headlines; by rewrite headlines_of_sentinel|].
  split.
  { intros text block first rest Hlines Hall. unfold extract_headlines.
    by rewrite headlines_of_sentinel, (headlines_of_block block first rest). }
  repeat split.
Qed.

(** C9: for every input, each headline is the stripped form of a line of the
    input, is not empty, is not the sentinel and holds no newline; the lines
    of the output are exactly these headlines (the output is the empty string
    when there is none). *)
Theorem extract_headlines_lines (cleaned_text : string) :
  Forall (fun h => h ≠ EmptyString ∧ h ≠ sentinel ∧ strip h = h
                   ∧ ∃ line, line ∈ split newline cleaned_text ∧ h = strip line)
         (headlines_of cleaned_text)
  ∧ split newline (extract_headlines cleaned_text)
    = match headlines_of cleaned_text with
      | [] => [EmptyString]
      | headlines => headlines
      end.
Proof.
  pose proof (headline_loop_invariant _ _ [] [] (stripped_lines_spec cleaned_text)
                (Forall_nil_2 _) (Forall_nil_2 _)) as Hinv.
  fold (headlines_of cleaned_text) in Hinv. split.
  - eapply Forall_impl; [exact Hinv|].
    intros h ((Hne & Hstrip & _ & Hline) & Hsent). auto.
  - unfold extract_headlines.
    destruct (headlines_of cleaned_text) as [|h hs]; [done|].
    apply split_join. eapply Forall_impl; [exact Hinv|].
    by intros h' ((_ & _ & Hnl & _) & _).
Qed.

End Headlines.

Lemma extract_headlines_example_witness :
  stripped_lines ("  H2 " +:+ nl +:+ "H2b") = ["H2"; "H2b"]
  ∧ Forall (fun line => line ≠ sentinel) ["H2"; "H2b"]
  ∧ extract_headlines
      (("H1" +:+ nl +:+ "H1b") +:+ nl +:+ sentinel +:+ nl +:+ ("  H2 " +:+ nl +:+ "H2b"))
    = PyStr.join nl (headlines_of ("H1" +:+ nl +:+ "H1b") ++ ["H2"]).
Proof.
  assert (Forall (fun line => line ≠ sentinel) ["H2"; "H2b"]) as Hall
    by (repeat constructor; discriminate).
  split; [reflexivity|]. split; [exact Hall|].
  exact (proj1 (proj2 (proj2 (proj2 (proj2 (proj2 extract_headlines_example)))))
           ("H1" +:+ nl +:+ "H1b") ("  H2 " +:+ nl +:+ "H2b") "H2" ["H2b"]
           eq_refl Hall).
Defined.

(** ** The status query *)

(** C8: the status query names the news source by priority (BrightData when
    both of its variables are set, else NewsAPI when its key is set, else
    none), lists the discussion feature exactly when both Reddit variables
    are set, and is healthy exactly when some news source is configured.  A
    variable is set when [os.getenv] gives a non-empty value. *)
Theorem health_check_reports (env : environ) :
  let brightdata :=
    env_set env "BRIGHTDATA_API_KEY" && env_set env "BRIGHTDATA_WEB_UNLOCKER_ZONE" in
  let newsapi := env_set env "NEWSAPI_KEY" in
  let reddit := env_set env "API_TOKEN" && env_set env "WEB_UNLOCKER_ZONE" in
  news_source (health_check env)
  = (if brightdata then "brightdata"
     else if newsapi then "newsapi" else "none_configured")
  ∧ ("reddit_scraping" ∈ features (health_check env) ↔ reddit = true)
  ∧ (status (health_check env) = "healthy" ↔ brightdata || newsapi = true)
  ∧ (status (health_check env) = "healthy"
     ↔ news_source (health_check env) ≠ "none_configured")
  ∧ (status (health_check env) = "healthy" ∨ status (health_check env) = "degraded").
Proof.
  intros brightdata newsapi reddit. subst brightdata newsapi reddit.
  unfold health_check.
  destruct (env_set env "BRIGHTDATA_API_KEY" && env_set env "BRIGHTDATA_WEB_UNLOCKER_ZONE");
    destruct (env_set env "NEWSAPI_KEY");
    destruct (env_set env "API_TOKEN" && env_set env "WEB_UNLOCKER_ZONE");
    destruct (env_set env "GEMINI_API_KEY"); simpl;
    repeat split; try done; try (intros _; by compute);
    try (by left); try (by right);
    try (intros Hin; repeat (apply elem_of_cons in Hin as [Hin|Hin]; [discriminate|]);
         by apply elem_of_nil in Hin);
    try (intros _; repeat first [by apply list_elem_of_here | apply list_elem_of_further]).
Qed.

(** ** The summarizer *)

Section Summarizer.

Import PyStr.

Context (w : World).

Lemma fold_left_snoc {A B} (f : B → A) (l : list B) (acc : list A) :
  fold_left (fun acc x => acc ++ [f x]) l acc = acc ++ map f l.
Proof.
  revert acc. induction l as [|x l IH]; intros acc; simpl.
  - by rewrite app_nil_r.
  - by rewrite IH, <- app_assoc.
Qed.

Lemma topic_blocks_map (news_data reddit_data : dataset) (topics : list string) :
  topic_blocks news_data reddit_data topics
  = map (topic_block news_data reddit_data) topics.
Proof. unfold topic_blocks. by rewrite fold_left_snoc. Qed.

(** The guard [d and key in d] adds nothing to [d[key].get(topic, "")] with
    its defaults. *)
Lemma guarded_lookup (d : dataset) (key topic : string) :
  dict_truthy d && bool_decide (is_Some (d !! key)) = false →
  get_str (get_dict d key) topic = EmptyString.
Proof.
  intros Hguard. unfold get_str, get_dict.
  destruct (d !! key) as [analysis|] eqn:Hkey; [|done].
  exfalso. apply andb_false_iff in Hguard as [Hd|Hk].
  - unfold dict_truthy in Hd. apply bool_decide_eq_false in Hd.
    apply Hd. intros ->. by rewrite lookup_empty in Hkey.
  - apply bool_decide_eq_false in Hk. by apply Hk.
Qed.

(** The block of a topic, by what the two categories hold for it. *)
Lemma topic_block_cases (news_data reddit_data : dataset) (topic : string) :
  let news := get_str (get_dict news_data "news_analysis") topic in
  let reddit := get_str (get_dict reddit_data "reddit_analysis") topic in
  topic_block news_data reddit_data topic
  = ("TOPIC: " +:+ topic +:+ nlnl)
      +:+ match truthy news && negb (startswith news "Error:"), truthy reddit with
          | true, true =>
              ("OFFICIAL NEWS CONTENT:" +:+ nl +:+ news) +:+ nlnl
                +:+ ("REDDIT DISCUSSION CONTENT:" +:+ nl +:+ reddit)
          | true, false => "OFFICIAL NEWS CONTENT:" +:+ nl +:+ news
          | false, true => "REDDIT DISCUSSION CONTENT:" +:+ nl +:+ reddit
          | false, false =>
              "LIMITED DATA: No current news or Reddit data available for this topic."
          end.
Proof.
  intros news reddit. unfold topic_block.
  destruct (dict_truthy news_data && bool_decide (is_Some (news_data !! "news_analysis")))
    eqn:Hn;
  destruct (dict_truthy reddit_data
            && bool_decide (is_Some (reddit_data !! "reddit_analysis"))) eqn:Hr;
  fold news; fold reddit;
  try (apply guarded_lookup with (topic := topic) in Hn; fold news in Hn; rewrite Hn);
  try (apply guarded_lookup with (topic := topic) in Hr; fold reddit in Hr; rewrite Hr);
  try (destruct (startswith news "Error:"); destruct (truthy news) eqn:Hnews);
  try destruct (truthy reddit) eqn:Hreddit;
  simpl; rewrite ?Hnews, ?Hreddit; try reflexivity.
Qed.

(** The summarizer makes one LLM call, never raises, and answers with the
    model's text or, when the call raises, with the fallback script. *)
Lemma generate_broadcast_news_run (key : option string)
    (news_data reddit_data : dataset) (topics : list string) :
  generate_broadcast_news w key news_data reddit_data topics
  = (Ok match generate_content w 4000 (broadcast_prompt w news_data reddit_data topics) with
        | Ok text => text
        | Raise _ => fallback_script topics
        end,
     [CallGemini 4000 (broadcast_prompt w news_data reddit_data topics)]).
Proof.
  unfold generate_broadcast_news, try_catch, call.
  by destruct (generate_content w 4000 _).
Qed.

Lemma fallback_script_truthy (topics : list string) :
  truthy (fallback_script topics) = true.
Proof. reflexivity. Qed.

(** C5: when the LLM call raises, the summarizer does not raise: it returns
    the fallback script, which is not empty and mentions every requested
    topic. *)
Theorem summarizer_fallback (key : option string) (news_data reddit_data : dataset)
    (topics : list string) (e : exn) :
  generate_content w 4000 (broadcast_prompt w news_data reddit_data topics) = Raise e →
  outcome (generate_broadcast_news w key news_data reddit_data topics)
  = Ok (fallback_script topics)
  ∧ fallback_script topics ≠ EmptyString
  ∧ Forall (fun topic => contains (fallback_script topics) topic) topics.
Proof.
  intros Hfail. rewrite generate_broadcast_news_run, Hfail. split; [done|].
  split; [by apply truthy_true, fallback_script_truthy|].
  apply Forall_forall. intros topic Hin. unfold fallback_script.
  by apply contains_app_l, contains_app_r, contains_join.
Qed.

(** C7: the prompt sent to the LLM holds one block per requested topic, in
    order.  A topic's block labels the content text as official content only
    when that text is non-empty and does not start with the error marker,
    labels the discussion text as discussion content when it is non-empty,
    and carries the limited-data marker when neither contributes. *)
Theorem prompt_topic_blocks (key : option string) (news_data reddit_data : dataset)
    (topics : list string) :
  log_of (generate_broadcast_news w key news_data reddit_data topics)
  = [CallGemini 4000
       (broadcast_system_prompt w +:+ nlnl +:+ user_prompt news_data reddit_data topics)]
  ∧ topic_blocks news_data reddit_data topics
    = map (topic_block news_data reddit_data) topics
  ∧ Forall
      (fun topic =>
         let news := get_str (get_dict news_data "news_analysis") topic in
         let reddit := get_str (get_dict reddit_data "reddit_analysis") topic in
         contains (user_prompt news_data reddit_data topics)
                  (topic_block news_data reddit_data topic)
         ∧ topic_block news_data reddit_data topic
           = ("TOPIC: " +:+ topic +:+ nlnl)
               +:+ match truthy news && negb (startswith news "Error:"),
                         truthy reddit with
                   | true, true =>
                       ("OFFICIAL NEWS CONTENT:" +:+ nl +:+ news) +:+ nlnl
                         +:+ ("REDDIT DISCUSSION CONTENT:" +:+ nl +:+ reddit)
                   | true, false => "OFFICIAL NEWS CONTENT:" +:+ nl +:+ news
                   | false, true => "REDDIT DISCUSSION CONTENT:" +:+ nl +:+ reddit
                   | false, false =>
                       "LIMITED DATA: No current news or Reddit data available for this topic."
                   end)
      topics.
Proof.
  split; [by rewrite generate_broadcast_news_run|].
  split; [apply topic_blocks_map|].
  apply Forall_forall. intros topic Hin. split; [|apply topic_block_cases].
  unfold user_prompt. rewrite topic_blocks_map.
  assert (topic_block news_data reddit_data topic
          ∈ map (topic_block news_data reddit_data) topics) as Hblock
    by (apply list_elem_of_fmap; eauto).
  destruct (map (topic_block news_data reddit_data) topics) as [|b bs];
    [by apply elem_of_nil in Hblock|].
  by apply contains_app_l, contains_join.
Qed.

End Summarizer.

Lemma summarizer_fallback_witness :
  generate_content world_down 4000 (broadcast_prompt world_down ∅ ∅ ["AI"; "Space"])
  = Raise (Exception "quota exceeded")
  ∧ outcome (generate_broadcast_news world_down None ∅ ∅ ["AI"; "Space"])
    = Ok (fallback_script ["AI"; "Space"])
  ∧ fallback_script ["AI"; "Space"] ≠ EmptyString
  ∧ Forall (fun topic => PyStr.contains (fallback_script ["AI"; "Space"]) topic)
           ["AI"; "Space"].
Proof.
  split; [reflexivity|].
  apply (summarizer_fallback world_down None ∅ ∅ ["AI"; "Space"]
                             (Exception "quota exceeded")).
  reflexivity.
Defined.

(** ** The free news scraper *)

Section Scraper.

Import PyStr.

Context (w : World) (env : environ).

Lemma bind_ok {A B} (a : A) (log : list event) (f : A → M B) :
  bind (Ok a, log) f = (fst (f a), log ++ snd (f a)).
Proof. unfold bind. by destruct (f a). Qed.

Lemma bind_raise {A B} (e : exn) (log : list event) (f : A → M B) :
  bind (Raise e, log) f = (Raise e, log).
Proof. reflexivity. Qed.

(** The dictionary a loop of unconditional stores builds. *)
Lemma fold_insert_lookup (f : string → string) (topics : list string) :
  ∀ (acc : gmap string string) (topic : string),
    fold_left (fun acc t => <[t := f t]> acc) topics acc !! topic
    = if decide (topic ∈ topics) then Some (f topic) else acc !! topic.
Proof.
  induction topics as [|t topics IH]; intros acc topic.
  - by rewrite decide_False by apply not_elem_of_nil.
  - cbn [fold_left]. rewrite IH. destruct (decide (topic ∈ topics)) as [Hin|Hnin].
    + rewrite decide_True by (by apply elem_of_cons; right). done.
    + destruct (decide (topic = t)) as [->|Hne].
      * rewrite decide_True by (by apply elem_of_cons; left).
        by rewrite lookup_insert_eq.
      * rewrite decide_False by (intros [?|?]%elem_of_cons; done).
        by rewrite lookup_insert_ne.
Qed.

Lemma fold_insert_dom (f : string → string) (topics : list string) :
  ∀ acc : gmap string string,
    dom (fold_left (fun acc t => <[t := f t]> acc) topics acc)
    = list_to_set topics ∪ dom acc.
Proof.
  induction topics as [|t topics IH]; intros acc; simpl.
  - set_solver.
  - rewrite IH, dom_insert_L. set_solver.
Qed.

Lemma mock_paragraph_mentions (topic : string) :
  mock_paragraph topic ≠ EmptyString ∧ contains (mock_paragraph topic) topic.
Proof.
  split; [by apply truthy_true|].
  unfold mock_paragraph. apply contains_app_l, contains_app_r, contains_refl.
Qed.

(** One turn of the loop never raises: it stores an entry for its topic. *)
Lemma scrape_topic_run (self : FreeNewsScraper) (results : gmap string string)
    (topic : string) :
  ∃ v log,
    scrape_topic w env self results topic = (Ok (<[topic := v]> results), log)
    ∧ topic_entry w self topic v.
Proof.
  unfold scrape_topic, call.
  destruct (requests_get w _ _ topic) as [response|e] eqn:Hget; simpl;
    [|eexists _, _; split; [reflexivity|by eapply entry_request_error]].
  destruct (Nat.eqb_spec (status_code response) 200) as [H200|H200].
  - destruct (json response) as [data|e] eqn:Hjson; simpl;
      [|eexists _, _; split; [reflexivity|by eapply entry_json_error]].
    destruct (default [] (articles data)) as [|first rest] eqn:Harticles; simpl;
      [eexists _, _; split; [reflexivity|by eapply entry_no_articles]|].
    unfold summarize_with_gemini_news_script, try_catch, call.
    destruct (generate_content w 1000 _) as [summary|e] eqn:Hllm; simpl;
      eexists _, _; (split; [reflexivity|]).
    + by eapply entry_summary.
    + by eapply entry_summary_error.
  - destruct (Nat.eqb_spec (status_code response) 429) as [H429|H429]; simpl;
      eexists _, _; (split; [reflexivity|]).
    + by eapply entry_rate_limit.
    + by eapply entry_bad_status.
Qed.

(** The loop stores one entry for each topic and touches no other key. *)
Lemma scrape_loop_run (self : FreeNewsScraper) (topics : list string) :
  ∀ results : gmap string string,
    ∃ results' log,
      for_each (scrape_topic w env self) topics results = (Ok results', log)
      ∧ dom results' = list_to_set topics ∪ dom results
      ∧ (∀ topic, topic ∈ topics →
                  ∃ v, results' !! topic = Some v ∧ topic_entry w self topic v)
      ∧ (∀ topic, topic ∉ topics → results' !! topic = results !! topic).
Proof.
  induction topics as [|t topics IH]; intros results.
  - exists results, []. simpl. split; [done|]. split; [set_solver|].
    split; [by intros ? ?%elem_of_nil|done].
  - destruct (scrape_topic_run self results t) as (v & log1 & Hstep & Hentry).
    destruct (IH (<[t := v]> results)) as (results' & log2 & Hloop & Hdom & Hin & Hout).
    exists results', (log1 ++ log2). simpl. rewrite Hstep, bind_ok, Hloop. simpl.
    split; [done|]. split; [rewrite Hdom, dom_insert_L; set_solver|]. split.
    + intros topic Htopic. destruct (decide (topic ∈ topics)) as [Hl|Hl]; [by apply Hin|].
      apply elem_of_cons in Htopic as [->|Htopic]; [|done].
      exists v. by rewrite (Hout t Hl), lookup_insert_eq.
    + intros topic Htopic. apply not_elem_of_cons in Htopic as [Hne Hl].
      by rewrite (Hout topic Hl), lookup_insert_ne.
Qed.

(** With a key, the scraper returns a dataset under ["news_analysis"]. *)
Lemma scrape_news_run (self : FreeNewsScraper) (topics : list string) :
  ∃ results log,
    scrape_news w env self topics = (Ok {[ "news_analysis" := results ]}, log).
Proof.
  unfold scrape_news. destruct (has_api_key self); simpl; [|by eexists _, _].
  destruct (scrape_loop_run self topics ∅) as (results & log & Hloop & _).
  exists results, (log ++ []). by rewrite Hloop, bind_ok.
Qed.

(** C4: a call of the scraper returns a dataset whose keys are exactly the
    input topics, whatever happens to each topic.  With a key, a topic whose
    fetch and summarization succeed gets its summary and any other topic gets
    the stub of its failure; without a key every topic gets the placeholder
    paragraph.  No per-topic failure is raised to the caller. *)
Theorem scrape_news_one_entry_per_topic (self : FreeNewsScraper)
    (topics : list string) :
  ∃ results log,
    scrape_news w env self topics = (Ok {[ "news_analysis" := results ]}, log)
    ∧ dom results = list_to_set topics
    ∧ Forall (fun topic =>
                ∃ v, results !! topic = Some v
                     ∧ if has_api_key self then topic_entry w self topic v
                       else v = mock_paragraph topic)
             topics.
Proof.
  unfold scrape_news. destruct (has_api_key self); simpl.
  - destruct (scrape_loop_run self topics ∅) as (results & log & Hloop & Hdom & Hin & _).
    exists results, (log ++ []). rewrite Hloop, bind_ok. simpl.
    split; [done|]. split; [rewrite Hdom; set_solver|].
    by apply Forall_forall.
  - eexists _, []. split; [reflexivity|].
    split; [rewrite fold_insert_dom; set_solver|].
    apply Forall_forall. intros topic Hin. exists (mock_paragraph topic).
    split; [|done]. by rewrite fold_insert_lookup, decide_True.
Qed.

(** C10: without a NewsAPI key the scraper returns without raising and
    without any call leaving the process; its answer has the shape of a real
    one and maps every requested topic to a non-empty placeholder paragraph
    that mentions the topic. *)
Theorem scrape_news_without_key (self : FreeNewsScraper) (topics : list string) :
  has_api_key self = false →
  ∃ mock_news,
    scrape_news w env self topics = (Ok {[ "news_analysis" := mock_news ]}, [])
    ∧ dom mock_news = list_to_set topics
    ∧ Forall (fun topic =>
                mock_news !! topic = Some (mock_paragraph topic)
                ∧ mock_paragraph topic ≠ EmptyString
                ∧ contains (mock_paragraph topic) topic)
             topics.
Proof.
  intros Hkey. unfold scrape_news. rewrite Hkey. simpl.
  eexists. split; [reflexivity|].
  split; [rewrite fold_insert_dom; set_solver|].
  apply Forall_forall. intros topic Hin.
  split; [by rewrite fold_insert_lookup, decide_True|].
  apply mock_paragraph_mentions.
Qed.

(** The scraper the backend builds has a key exactly when [NEWSAPI_KEY] is
    set in the environment. *)
Lemma init_has_api_key :
  has_api_key (FreeNewsScraper_init env) = newsapi_eligible env.
Proof. reflexivity. Qed.

End Scraper.

Lemma scrape_news_without_key_witness :
  has_api_key (FreeNewsScraper_init ∅) = false
  ∧ ∃ mock_news,
      scrape_news world_down ∅ (FreeNewsScraper_init ∅) ["AI"; "Climate Change"]
      = (Ok {[ "news_analysis" := mock_news ]}, [])
      ∧ dom mock_news = list_to_set ["AI"; "Climate Change"]
      ∧ Forall (fun topic =>
                  mock_news !! topic = Some (mock_paragraph topic)
                  ∧ mock_paragraph topic ≠ EmptyString
                  ∧ PyStr.contains (mock_paragraph topic) topic)
               ["AI"; "Climate Change"].
Proof.
  split; [reflexivity|].
  apply (scrape_news_without_key world_down ∅ (FreeNewsScraper_init ∅)
                                 ["AI"; "Climate Change"]).
  reflexivity.
Defined.

(** ** The orchestrator *)

Section Backend.

Import PyStr.

Context (w : World) (env : environ).

Lemma try_catch_ok {A} (a : A) (log : list event) (handler : exn → M A) :
  try_catch (Ok a, log) handler = (Ok a, log).
Proof. reflexivity. Qed.

Lemma try_catch_raise {A} (e : exn) (log : list event) (handler : exn → M A) :
  try_catch (Raise e, log) handler = (fst (handler e), log ++ snd (handler e)).
Proof. unfold try_catch. by destruct (handler e). Qed.

Lemma singleton_dataset_truthy (key : string) (analysis : gmap string string) :
  dict_truthy ({[ key := analysis ]} : dataset) = true.
Proof.
  apply bool_decide_eq_true. intros Hempty.
  apply (f_equal (fun d : dataset => d !! key)) in Hempty.
  by rewrite lookup_singleton_eq, lookup_empty in Hempty.
Qed.

(** The content category, case by case: BrightData's answer when it is
    eligible and succeeds, else NewsAPI's when it is eligible, else the
    error. *)
Lemma get_news_data_run (topics : list string) :
  get_news_data w env topics
  = let tried := if brightdata_eligible env then [Invoke BrightData topics] else [] in
    match brightdata_eligible env, news_scraper_scrape_news w topics with
    | true, Ok data => (Ok data, [Invoke BrightData topics])
    | _, _ =>
        if newsapi_eligible env then
          (outcome (scrape_news w env (FreeNewsScraper_init env) topics),
           tried ++ Invoke NewsAPI topics
             :: log_of (scrape_news w env (FreeNewsScraper_init env) topics))
        else (Raise (HTTPException 503 no_source_detail), tried)
    end.
Proof.
  unfold get_news_data.
  destruct (scrape_news_run w env (FreeNewsScraper_init env) topics)
    as (results & log & Hnews).
  destruct (brightdata_eligible env);
    [destruct (news_scraper_scrape_news w topics) as [data|e]|];
    try reflexivity;
    destruct (newsapi_eligible env); rewrite ?Hnews; by run_effects.
Qed.

(** C2: when BrightData is eligible and its fetch succeeds, the content
    category returns its data and NewsAPI is neither invoked nor queried.
    Whenever NewsAPI is invoked, BrightData was ineligible, or was invoked
    before it and failed. *)
Theorem provider_priority (topics : list string) :
  (∀ data,
      brightdata_eligible env = true →
      news_scraper_scrape_news w topics = Ok data →
      get_news_data w env topics = (Ok data, [Invoke BrightData topics])
      ∧ (∀ ts, Invoke NewsAPI ts ∉ log_of (get_news_data w env topics))
      ∧ (∀ url key q, HttpGet url key q ∉ log_of (get_news_data w env topics)))
  ∧ (∀ ts,
        Invoke NewsAPI ts ∈ log_of (get_news_data w env topics) →
        newsapi_eligible env = true
        ∧ (brightdata_eligible env = false
           ∨ ∃ e rest,
               news_scraper_scrape_news w topics = Raise e
               ∧ log_of (get_news_data w env topics)
                 = Invoke BrightData topics :: Invoke NewsAPI topics :: rest)).
Proof.
  rewrite get_news_data_run. split.
  - intros data -> ->. simpl. split; [done|].
    split; intros; by intros [?|?%elem_of_nil]%elem_of_cons.
  - intros ts. destruct (brightdata_eligible env);
      [destruct (news_scraper_scrape_news w topics) as [data|e]|]; simpl.
    + by intros [?|?%elem_of_nil]%elem_of_cons.
    + destruct (newsapi_eligible env); simpl.
      * intros _. split; [done|]. right. by eexists _, _.
      * by intros [?|?%elem_of_nil]%elem_of_cons.
    + destruct (newsapi_eligible env); simpl; [by auto|].
      by intros ?%elem_of_nil.
Qed.

(** The discussion category never raises: a failure of the source leaves
    the empty dataset. *)
Lemma collect_reddit_run (request : NewsRequest) (results : gmap string dataset) :
  collect_reddit w request results
  = if bool_decide (source_type request ∈ ["reddit"; "both"]) then
      (Ok (<["reddit" := match scrape_reddit_topics w (topics request) with
                          | Ok reddit => reddit
                          | Raise _ => ∅
                          end]> results),
       [Invoke Reddit (topics request)])
    else (Ok results, []).
Proof.
  unfold collect_reddit. case_bool_decide; [|done].
  by destruct (scrape_reddit_topics w (topics request)).
Qed.

(** The script the summarizer hands to the renderer. *)
Lemma summarize_and_render_log (request : NewsRequest)
    (news_data reddit_data : dataset) :
  let prompt := broadcast_prompt w news_data reddit_data (topics request) in
  let script := match generate_content w 4000 prompt with
                | Ok text => text
                | Raise _ => fallback_script (topics request)
                end in
  ∃ rest,
    log_of (summarize_and_render w env request news_data reddit_data)
    = CallGemini 4000 prompt
        :: (if truthy script then CallTTS script :: rest else []).
Proof.
  intros prompt script. unfold summarize_and_render.
  rewrite generate_broadcast_news_run. fold prompt. fold script.
  rewrite bind_ok. destruct (truthy script); simpl; [|by exists []].
  unfold tts_to_audio, call.
  destruct (gtts_save w script) as [path|e]; simpl; [|by eexists].
  destruct (if truthy path then read_bytes w path else None); simpl; by eexists.
Qed.

(** The handler, stage by stage. *)
Lemma generate_news_audio_run (request : NewsRequest) :
  let want_news := bool_decide (source_type request ∈ ["news"; "both"]) in
  let want_reddit := bool_decide (source_type request ∈ ["reddit"; "both"]) in
  generate_news_audio w env request
  = match (if want_news then get_news_data w env (topics request) else (Ok ∅, [])) with
    | (Raise e, log) => (Raise (HTTPException 500 (str w e)), log)
    | (Ok news_data, log) =>
        let reddit_data :=
          if want_reddit then
            match scrape_reddit_topics w (topics request) with
            | Ok reddit => reddit
            | Raise _ => ∅
            end
          else ∅ in
        let log := log ++ (if want_reddit then [Invoke Reddit (topics request)] else []) in
        if negb (dict_truthy news_data) && negb (dict_truthy reddit_data) then
          (Raise (HTTPException 500
                    (str w (HTTPException 503
                              "Unable to collect any data from configured sources"))),
           log)
        else
          let rendered := summarize_and_render w env request news_data reddit_data in
          (match outcome rendered with
           | Ok audio => Ok audio
           | Raise e => Raise (HTTPException 500 (str w e))
           end,
           log ++ log_of rendered)
    end.
Proof.
  intros want_news want_reddit.
  unfold generate_news_audio, collect_news, collect_reddit.
  fold want_news. fold want_reddit.
  destruct want_news, want_reddit;
    try destruct (get_news_data w env (topics request)) as [[news_data|e] log];
    try destruct (scrape_reddit_topics w (topics request)) as [reddit|e'];
    run_effects; unfold get_dict; simplify_map_eq; try reflexivity.
  all: destruct (negb _ && negb _); [by run_effects|].
  all: match goal with
       | |- context [summarize_and_render ?w ?env ?r ?n ?d] =>
           destruct (summarize_and_render w env r n d) as [[audio|err] rlog]
       end;
    by run_effects.
Qed.

(** The content category raises exactly when it is exhausted. *)
Lemma get_news_data_raises (topics : list string) (e : exn) :
  outcome (get_news_data w env topics) = Raise e
  ↔ e = HTTPException 503 no_source_detail
    ∧ newsapi_eligible env = false
    ∧ (brightdata_eligible env = false
       ∨ ∃ e', news_scraper_scrape_news w topics = Raise e').
Proof.
  rewrite get_news_data_run.
  destruct (scrape_news_run w env (FreeNewsScraper_init env) topics)
    as (results & log & ->).
  destruct (brightdata_eligible env);
    [destruct (news_scraper_scrape_news w topics) as [data|e']|];
    destruct (newsapi_eligible env); simpl; naive_solver.
Qed.

(** C1, as the code has it: the discussion category absorbs the failure of
    its source and yields the empty dataset, never an error; the content
    category raises [HTTPException 503] exactly when every provider of it is
    ineligible or has failed, and a request that asks for news then ends in
    an [HTTPException 500] at that point. *)
Theorem category_exhaustion (request : NewsRequest) :
  (∀ results,
      ∃ results',
        collect_reddit w request results
        = (Ok results',
           if bool_decide (source_type request ∈ ["reddit"; "both"])
           then [Invoke Reddit (topics request)] else [])
        ∧ ∀ e, source_type request ∈ ["reddit"; "both"] →
               scrape_reddit_topics w (topics request) = Raise e →
               results' = <["reddit" := ∅]> results)
  ∧ (∀ e,
        outcome (get_news_data w env (topics request)) = Raise e
        ↔ e = HTTPException 503 no_source_detail
          ∧ newsapi_eligible env = false
          ∧ (brightdata_eligible env = false
             ∨ ∃ e', news_scraper_scrape_news w (topics request) = Raise e'))
  ∧ (∀ e,
        source_type request ∈ ["news"; "both"] →
        outcome (get_news_data w env (topics request)) = Raise e →
        generate_news_audio w env request
        = (Raise (HTTPException 500 (str w e)),
           log_of (get_news_data w env (topics request)))).
Proof.
  split; [|split].
  - intros results. rewrite collect_reddit_run.
    case_bool_decide as Hmode; eexists; (split; [reflexivity|]).
    + by intros e _ ->.
    + by intros e ?.
  - apply get_news_data_raises.
  - intros e Hmode Hraise. rewrite generate_news_audio_run.
    rewrite bool_decide_eq_true_2 by done.
    destruct (get_news_data w env (topics request)) as [[news_data|e'] log];
      simpl in *; congruence.
Qed.

(** C3, as the code has it, for a request that asks for both categories.
    When the content category raises, the request ends there with an
    [HTTPException 500] and the discussion source is not consulted.  When it
    returns, a failure of the discussion source leaves the empty dataset;
    the request ends with an [HTTPException 500] if both datasets are empty
    dictionaries, and otherwise the summarizer is called on the two
    datasets and the renderer on its script, if that is not empty. *)
Theorem both_mode_outcome (request : NewsRequest) :
  source_type request = "both" →
  match get_news_data w env (topics request) with
  | (Raise e, log) =>
      generate_news_audio w env request = (Raise (HTTPException 500 (str w e)), log)
      ∧ log = (if brightdata_eligible env
               then [Invoke BrightData (topics request)] else [])
  | (Ok news_data, log) =>
      let reddit_data :=
        match scrape_reddit_topics w (topics request) with
        | Ok reddit => reddit
        | Raise _ => ∅
        end in
      if negb (dict_truthy news_data) && negb (dict_truthy reddit_data) then
        generate_news_audio w env request
        = (Raise (HTTPException 500
                    (str w (HTTPException 503
                              "Unable to collect any data from configured sources"))),
           log ++ [Invoke Reddit (topics request)])
      else
        let prompt := broadcast_prompt w news_data reddit_data (topics request) in
        let script := match generate_content w 4000 prompt with
                      | Ok text => text
                      | Raise _ => fallback_script (topics request)
                      end in
        ∃ rest,
          log_of (generate_news_audio w env request)
          = log ++ Invoke Reddit (topics request) :: CallGemini 4000 prompt
              :: (if truthy script then CallTTS script :: rest else [])
  end.
Proof.
  intros Hmode. rewrite generate_news_audio_run, Hmode.
  rewrite !bool_decide_eq_true_2 by (rewrite !elem_of_cons; auto).
  pose proof (get_news_data_run (topics request)) as Hrun.
  destruct (get_news_data w env (topics request)) as [[news_data|e] log].
  - cbv zeta.
    destruct (negb (dict_truthy news_data) && negb _); [done|].
    destruct (summarize_and_render_log request news_data
                match scrape_reddit_topics w (topics request) with
                | Ok reddit => reddit
                | Raise _ => ∅
                end) as (rest & Hlog).
    exists rest. unfold log_of at 1. cbn [snd]. rewrite Hlog.
    by rewrite <- app_assoc.
  - split; [done|].
    destruct (scrape_news_run w env (FreeNewsScraper_init env) (topics request))
      as (results & log' & Hnews).
    rewrite Hnews in Hrun. cbv zeta in Hrun.
    destruct (brightdata_eligible env);
      [destruct (news_scraper_scrape_news w (topics request))|];
      destruct (newsapi_eligible env); simpl in Hrun; congruence.
Qed.

End Backend.

(** *** Sample runs *)

Lemma provider_priority_witness :
  brightdata_eligible env_all = true
  ∧ news_scraper_scrape_news world_up ["AI"]
    = Ok {[ "news_analysis" := {[ "AI" := "Premium report" ]} ]}
  ∧ get_news_data world_up env_all ["AI"]
    = (Ok {[ "news_analysis" := {[ "AI" := "Premium report" ]} ]},
       [Invoke BrightData ["AI"]])
  ∧ (∀ ts, Invoke NewsAPI ts ∉ log_of (get_news_data world_up env_all ["AI"]))
  ∧ (∀ url key q, HttpGet url key q ∉ log_of (get_news_data world_up env_all ["AI"])).
Proof.
  split; [reflexivity|]. split; [reflexivity|].
  apply (proj1 (provider_priority world_up env_all ["AI"])); reflexivity.
Defined.

Lemma category_exhaustion_witness :
  "both" ∈ ["news"; "both"]
  ∧ outcome (get_news_data world_reddit_only ∅ ["AI"])
    = Raise (HTTPException 503 no_source_detail)
  ∧ generate_news_audio world_reddit_only ∅
      {| topics := ["AI"]; source_type := "both" |}
    = (Raise (HTTPException 500 no_source_detail), []).
Proof.
  assert ("both" ∈ ["news"; "both"]) as Hmode by (apply elem_of_cons; right; left).
  split; [exact Hmode|]. split; [reflexivity|].
  exact (proj2 (proj2 (category_exhaustion world_reddit_only ∅
                         {| topics := ["AI"]; source_type := "both" |}))
               (HTTPException 503 no_source_detail) Hmode eq_refl).
Defined.

Lemma both_mode_outcome_witness :
  source_type {| topics := ["AI"]; source_type := "both" |} = "both"
  ∧ ∃ rest,
      log_of (generate_news_audio world_no_reddit env_all
                {| topics := ["AI"]; source_type := "both" |})
      = [Invoke BrightData ["AI"]]
          ++ Invoke Reddit ["AI"]
          :: CallGemini 4000
               (broadcast_prompt world_no_reddit
                  {[ "news_analysis" := {[ "AI" := "Premium report" ]} ]} ∅ ["AI"])
          :: CallTTS "Good evening." :: rest.
Proof.
  split; [reflexivity|].
  exact (both_mode_outcome world_no_reddit env_all
           {| topics := ["AI"]; source_type := "both" |} eq_refl).
Defined.

(** No content provider is configured and the discussion source has data:
    the content category raises, and the request for both categories fails
    although the same world serves a discussion-only request. *)
Lemma exhausted_content_is_an_error :
  brightdata_eligible ∅ = false
  ∧ newsapi_eligible ∅ = false
  ∧ get_news_data world_reddit_only ∅ ["AI"]
    = (Raise (HTTPException 503 no_source_detail), [])
  ∧ generate_news_audio world_reddit_only ∅
      {| topics := ["AI"]; source_type := "both" |}
    = (Raise (HTTPException 500 no_source_detail), [])
  ∧ outcome (generate_news_audio world_reddit_only ∅
               {| topics := ["AI"]; source_type := "reddit" |})
    = Ok {| content := "ID3"; media_type := "audio/mpeg" |}.
Proof. repeat split. Qed.

(** BrightData is configured and fails, NewsAPI is not configured, and the
    discussion source has data: the request for both categories fails
    before the discussion source or the summarizer is reached. *)
Lemma content_failure_aborts_request :
  brightdata_eligible env_brightdata = true
  ∧ news_scraper_scrape_news world_reddit_only ["AI"]
    = Raise (Exception "BrightData unreachable")
  ∧ dict_truthy
      (match scrape_reddit_topics world_reddit_only ["AI"] with
       | Ok reddit => reddit
       | Raise _ => ∅
       end) = true
  ∧ generate_news_audio world_reddit_only env_brightdata
      {| topics := ["AI"]; source_type := "both" |}
    = (Raise (HTTPException 500 no_source_detail), [Invoke BrightData ["AI"]])
  ∧ ¬ (∃ prompt,
          CallGemini 4000 prompt
          ∈ log_of (generate_news_audio world_reddit_only env_brightdata
                      {| topics := ["AI"]; source_type := "both" |})).
Proof.
  repeat split.
  intros (prompt & Hin). vm_compute in Hin.
  apply elem_of_cons in Hin as [Hin|Hin]; [discriminate|].
  by apply elem_of_nil in Hin.
Qed.

(** * Further properties *)

(** ** Headline extraction, beyond the sentinel example *)

Section MoreHeadlines.

Import PyStr.

(** Without a sentinel the loop only grows the block. *)
Lemma headline_loop_no_sentinel (lines : list string) :
  ∀ headlines current_block,
    Forall (fun line => line ≠ sentinel) lines →
    fold_left headline_step lines (headlines, current_block)
    = (headlines, current_block ++ lines).
Proof.
  induction lines as [|line lines IH]; intros hs blk Hall; simpl.
  - by rewrite app_nil_r.
  - inversion_clear Hall as [|? ? Hline Hrest].
    apply String.eqb_neq in Hline. rewrite Hline, IH by done.
    by rewrite <- app_assoc.
Qed.

Lemma headlines_no_sentinel (cleaned_text : string) :
  Forall (fun line => line ≠ sentinel) (stripped_lines cleaned_text) →
  headlines_of cleaned_text
  = match stripped_lines cleaned_text with
    | [] => []
    | first :: _ => [first]
    end.
Proof.
  intros Hall. unfold headlines_of. rewrite headline_loop_no_sentinel by done.
  simpl. by destruct (stripped_lines cleaned_text).
Qed.

(** X1: a text in which no line is the sentinel yields one headline only,
    its first non-blank line; every later line is dropped. *)
Theorem extract_headlines_without_sentinel (cleaned_text : string) :
  Forall (fun line => line ≠ sentinel) (stripped_lines cleaned_text) →
  extract_headlines cleaned_text
  = default EmptyString (head (stripped_lines cleaned_text)).
Proof.
  intros Hall. unfold extract_headlines. rewrite headlines_no_sentinel by done.
  by destruct (stripped_lines cleaned_text).
Qed.

(** What the loop emits from a state: in the order of the input, and at
    most one headline per sentinel line plus the final flush. *)
Lemma headline_loop_emits (lines : list string) :
  ∀ headlines current_block,
    ∃ emitted,
      headline_flush (fold_left headline_step lines (headlines, current_block))
      = headlines ++ emitted
      ∧ emitted `sublist_of` (current_block ++ lines)
      ∧ length emitted ≤ S (length (filter (fun line => line = sentinel) lines)).
Proof.
  induction lines as [|line lines IH]; intros hs blk.
  - exists (take 1 blk). simpl. split; [destruct blk; simpl; by rewrite ?app_nil_r|].
    rewrite app_nil_r. split; [apply sublist_take|].
    destruct blk; simpl; lia.
  - simpl. destruct (String.eqb line sentinel) eqn:Heq.
    + apply String.eqb_eq in Heq as ->.
      rewrite filter_cons_True by done. simpl length.
      destruct blk as [|b blk].
      * destruct (IH hs []) as (emitted & Hrun & Hsub & Hlen).
        exists emitted. split; [done|]. split; [by apply sublist_cons|lia].
      * destruct (IH (hs ++ [b]) []) as (emitted & Hrun & Hsub & Hlen).
        exists (b :: emitted). rewrite Hrun, <- app_assoc. split; [done|].
        split; [|simpl; lia].
        simpl. apply sublist_skip.
        apply sublist_inserts_l, sublist_cons, Hsub.
    + apply String.eqb_neq in Heq.
      rewrite filter_cons_False by done.
      destruct (IH hs (blk ++ [line])) as (emitted & Hrun & Hsub & Hlen).
      exists emitted. split; [done|]. split; [|done].
      by rewrite <- app_assoc in Hsub.
Qed.

(** X2: the headlines are lines of the cleaned text in their original
    order, and there are at most as many of them as sentinel lines, plus
    one for the flush at the end. *)
Theorem headlines_ordered_and_bounded (cleaned_text : string) :
  headlines_of cleaned_text `sublist_of` stripped_lines cleaned_text
  ∧ length (headlines_of cleaned_text)
    ≤ S (length (filter (fun line => line = sentinel) (stripped_lines cleaned_text))).
Proof.
  destruct (headline_loop_emits (stripped_lines cleaned_text) [] [])
    as (emitted & Hrun & Hsub & Hlen).
  unfold headlines_of. rewrite Hrun. simpl. done.
Qed.

Lemma headline_loop_keeps_output (lines : list string) :
  ∀ headlines current_block,
    headlines ≠ [] ∨ current_block ≠ [] →
    headline_flush (fold_left headline_step lines (headlines, current_block)) ≠ [].
Proof.
  induction lines as [|line lines IH]; intros hs blk Hne; simpl.
  - destruct blk; [|by destruct hs]. by destruct Hne.
  - destruct (String.eqb line sentinel).
    + destruct blk as [|b blk]; apply IH; [by destruct Hne; auto|].
      left. by destruct hs.
    + apply IH. right. by destruct blk.
Qed.

Lemma headline_loop_empty (lines : list string) :
  headline_flush (fold_left headline_step lines ([], [])) = []
  ↔ Forall (fun line => line = sentinel) lines.
Proof.
  induction lines as [|line lines IH]; simpl; [by split|].
  destruct (String.eqb line sentinel) eqn:Heq.
  - apply String.eqb_eq in Heq. rewrite IH, Forall_cons. naive_solver.
  - apply String.eqb_neq in Heq. split.
    + intros Hnil. by apply headline_loop_keeps_output in Hnil; [|right].
    + by intros [? _]%Forall_cons.
Qed.

Lemma join_empty (sep : string) (l : list string) :
  Forall (fun x => x ≠ EmptyString) l →
  join sep l = EmptyString ↔ l = [].
Proof.
  intros Hall. split; [|by intros ->].
  destruct l as [|x l]; [done|]. inversion_clear Hall as [|? ? Hx _].
  destruct x as [|c x]; [done|]. by destruct l.
Qed.

(** The headlines are stripped, non-blank, newline-free and not the
    sentinel. *)
Lemma headlines_clean (cleaned_text : string) :
  Forall (fun h => (h ≠ EmptyString ∧ strip h = h ∧ has_char newline h = false
                    ∧ ∃ line, line ∈ split newline cleaned_text ∧ h = strip line)
                   ∧ h ≠ sentinel)
         (headlines_of cleaned_text).
Proof.
  exact (headline_loop_invariant _ _ [] [] (stripped_lines_spec cleaned_text)
           (Forall_nil_2 _) (Forall_nil_2 _)).
Qed.

(** X3: the output is the empty string exactly when the cleaned text has no
    line besides blank lines and sentinel lines. *)
Theorem extract_headlines_empty (cleaned_text : string) :
  extract_headlines cleaned_text = EmptyString
  ↔ Forall (fun line => line = sentinel) (stripped_lines cleaned_text).
Proof.
  rewrite <- headline_loop_empty. unfold extract_headlines.
  apply join_empty. eapply Forall_impl; [apply headlines_clean|].
  by intros h ((Hne & _) & _).
Qed.

Lemma clean_lines_kept (lines : list string) :
  Forall (fun h => h ≠ EmptyString ∧ strip h = h ∧ has_char newline h = false)
         lines →
  map strip (filter (fun line => truthy (strip line) = true) lines) = lines.
Proof.
  induction 1 as [|x l (Hx & Hstrip & _) _ IH]; [done|].
  rewrite filter_cons_True by (rewrite Hstrip; by apply truthy_true).
  simpl. by rewrite Hstrip, IH.
Qed.

(** Lines that are already clean pass the list comprehension unchanged. *)
Lemma stripped_lines_join (headlines : list string) :
  Forall (fun h => h ≠ EmptyString ∧ strip h = h ∧ has_char newline h = false)
         headlines →
  headlines ≠ [] →
  stripped_lines (join nl headlines) = headlines.
Proof.
  intros Hall Hne. unfold stripped_lines.
  destruct headlines as [|h hs]; [done|].
  rewrite split_join by (eapply Forall_impl; [exact Hall|]; naive_solver).
  by apply clean_lines_kept.
Qed.

(** X4: extraction is not idempotent.  Run on its own output, which holds
    no sentinel any more, it keeps the first headline and drops the rest. *)
Theorem extract_headlines_twice (cleaned_text : string) :
  extract_headlines (extract_headlines cleaned_text)
  = default EmptyString (head (headlines_of cleaned_text)).
Proof.
  pose proof (headlines_clean cleaned_text) as Hclean.
  unfold extract_headlines at 2.
  destruct (headlines_of cleaned_text) as [|h hs] eqn:Hhs; [done|].
  assert (stripped_lines (join nl (h :: hs)) = h :: hs) as Hlines.
  { apply stripped_lines_join; [|done].
    eapply Forall_impl; [exact Hclean|]. naive_solver. }
  unfold extract_headlines. rewrite headlines_no_sentinel; rewrite Hlines.
  - done.
  - eapply Forall_impl; [exact Hclean|]. naive_solver.
Qed.

End MoreHeadlines.

Lemma extract_headlines_without_sentinel_witness :
  Forall (fun line => line ≠ sentinel)
         (stripped_lines ("Markets fall" +:+ nl +:+ "Reuters" +:+ nl +:+ "2 hours ago"))
  ∧ extract_headlines ("Markets fall" +:+ nl +:+ "Reuters" +:+ nl +:+ "2 hours ago")
    = default EmptyString
        (head (stripped_lines ("Markets fall" +:+ nl +:+ "Reuters" +:+ nl
                                 +:+ "2 hours ago"))).
Proof.
  assert (Forall (fun line => line ≠ sentinel)
            (stripped_lines ("Markets fall" +:+ nl +:+ "Reuters" +:+ nl
                               +:+ "2 hours ago"))) as Hall
    by (repeat constructor; discriminate).
  split; [exact Hall|].
  exact (extract_headlines_without_sentinel _ Hall).
Defined.

Example extraction_twice_loses_headlines :
  extract_headlines ("H1" +:+ nl +:+ "More" +:+ nl +:+ "H2") = "H1" +:+ nl +:+ "H2"
  ∧ extract_headlines (extract_headlines ("H1" +:+ nl +:+ "More" +:+ nl +:+ "H2"))
    = "H1".
Proof. split; reflexivity. Qed.

(** ** The free news scraper, beyond one entry per topic *)

Section MoreScraper.

Import PyStr.

Context (w : World) (env : environ).

Lemma article_headlines_acc (articles : list article) :
  ∀ acc,
    fold_left
      (fun headlines article =>
         let title := default EmptyString (title article) in
         let description := default EmptyString (description article) in
         if truthy title
         then headlines
                ++ [if truthy description
                    then title +:+ ". " +:+ description else title]
         else headlines)
      articles acc
    = acc ++ article_headlines articles.
Proof.
  unfold article_headlines.
  induction articles as [|a articles IH]; intros acc; simpl.
  - by rewrite app_nil_r.
  - rewrite IH. symmetry. rewrite IH.
    destruct (truthy (default EmptyString (title a))); [|done].
    by rewrite app_assoc.
Qed.

Lemma article_headlines_app (l1 l2 : list article) :
  article_headlines (l1 ++ l2) = article_headlines l1 ++ article_headlines l2.
Proof.
  unfold article_headlines at 1. rewrite fold_left_app.
  fold (article_headlines l1). apply article_headlines_acc.
Qed.

Lemma article_headlines_cons (a : article) (l : list article) :
  article_headlines (a :: l) = article_headlines [a] ++ article_headlines l.
Proof. apply (article_headlines_app [a] l). Qed.

Lemma startswith_refl (t : string) : startswith t t = true.
Proof.
  unfold startswith. induction t as [|c t IH]; simpl; [done|].
  by destruct (Ascii.ascii_dec c c).
Qed.

Lemma startswith_app (t r : string) : startswith (t +:+ r) t = true.
Proof.
  unfold startswith. induction t as [|c t IH]; [by destruct (_ +:+ _)|].
  rewrite append_cons. simpl. by destruct (Ascii.ascii_dec c c).
Qed.

Lemma article_headlines_one (a : article) :
  article_headlines [a]
  = if truthy (default EmptyString (title a))
    then [if truthy (default EmptyString (description a))
          then default EmptyString (title a) +:+ ". "
                 +:+ default EmptyString (description a)
          else default EmptyString (title a)]
    else [].
Proof. unfold article_headlines. simpl. by destruct (truthy _). Qed.

(** X5: the headlines follow the order of the articles; an article without
    a title gives none, whatever its description; no headline is empty, and
    each begins with the title of its article. *)
Theorem article_headlines_titles (articles : list article) :
  (∀ l1 l2, article_headlines (l1 ++ l2) = article_headlines l1 ++ article_headlines l2)
  ∧ length (article_headlines articles)
    = length (filter (fun a => truthy (default EmptyString (title a)) = true) articles)
  ∧ Forall (fun h => h ≠ EmptyString
                     ∧ ∃ a t, a ∈ articles ∧ title a = Some t ∧ t ≠ EmptyString
                              ∧ startswith h t = true)
           (article_headlines articles).
Proof.
  split; [apply article_headlines_app|].
  induction articles as [|a articles [IHlen IHall]]; [by split|].
  rewrite article_headlines_cons, article_headlines_one, length_app.
  assert (Forall (fun h => h ≠ EmptyString
                           ∧ ∃ a0 t, a0 ∈ a :: articles ∧ title a0 = Some t
                                     ∧ t ≠ EmptyString ∧ startswith h t = true)
                 (article_headlines articles)) as Htail.
  { eapply Forall_impl; [exact IHall|]. intros h (Hh & a0 & t & Hin & Hrest).
    split; [done|]. exists a0, t. split; [by apply elem_of_cons; right|done]. }
  destruct (truthy (default EmptyString (title a))) eqn:Ht.
  - rewrite filter_cons_True by done. split; [simpl; by rewrite IHlen|].
    apply Forall_app. split; [|done]. constructor; [|done].
    destruct (title a) as [t|] eqn:Htitle; [|done]. simpl in *.
    assert (t ≠ EmptyString) as Hne by (by apply truthy_true).
    split.
    + destruct (truthy (default EmptyString (description a))); [|done].
      by apply truthy_true, append_truthy_l.
    + exists a, t. split; [by apply elem_of_cons; left|]. split; [done|].
      split; [done|].
      destruct (truthy (default EmptyString (description a)));
        [apply startswith_app|apply startswith_refl].
  - rewrite filter_cons_False by (rewrite Ht; done). by split.
Qed.

Lemma article_headlines_untitled (articles : list article) :
  Forall (fun a => truthy (default EmptyString (title a)) = false) articles →
  article_headlines articles = [].
Proof.
  induction 1 as [|a articles Ha _ IH]; [done|].
  by rewrite article_headlines_cons, article_headlines_one, Ha, IH.
Qed.

(** One turn of the loop queries NewsAPI once, for its topic, and calls the
    LLM at most once. *)
Lemma scrape_topic_log (self : FreeNewsScraper) (results : gmap string string)
    (topic : string) :
  ∃ llm,
    log_of (scrape_topic w env self results topic)
    = HttpGet (base_url self) (default EmptyString (api_key self)) topic :: llm
    ∧ (llm = [] ∨ ∃ headlines, llm = [CallGemini 1000 (news_script_prompt w headlines)]).
Proof.
  unfold scrape_topic, call.
  destruct (requests_get w _ _ topic) as [response|e]; simpl; [|by eexists; eauto].
  destruct (status_code response =? 200).
  - destruct (json response) as [data|e]; simpl; [|by eexists; eauto].
    destruct (default [] (articles data)) as [|first rest]; simpl; [by eexists; eauto|].
    unfold summarize_with_gemini_news_script, try_catch, call.
    destruct (generate_content w 1000 _); simpl; eexists; split; eauto.
  - destruct (status_code response =? 429); simpl; by eexists; eauto.
Qed.

Lemma http_queries_app (l1 l2 : list event) :
  http_queries (l1 ++ l2) = http_queries l1 ++ http_queries l2.
Proof. apply omap_app. Qed.

Lemma scrape_loop_log (self : FreeNewsScraper) (topics : list string) :
  ∀ results : gmap string string,
    http_queries (log_of (for_each (scrape_topic w env self) topics results)) = topics
    ∧ Forall (fun ev => scraper_event ev = true)
             (log_of (for_each (scrape_topic w env self) topics results))
    ∧ length (log_of (for_each (scrape_topic w env self) topics results))
      ≤ 2 * length topics.
Proof.
  induction topics as [|t topics IH]; intros results; [by repeat split|].
  destruct (scrape_topic_run w env self results t) as (v & log1 & Hstep & _).
  destruct (scrape_topic_log self results t) as (llm & Hlog & Hllm).
  rewrite Hstep in Hlog. simpl in Hlog. subst log1.
  destruct (IH (<[t := v]> results)) as (Hq & Hev & Hlen).
  simpl for_each. rewrite Hstep, bind_ok. unfold log_of in *. cbn [snd].
  rewrite http_queries_app, Hq, Forall_app, length_app.
  destruct Hllm as [->|[headlines ->]]; simpl; repeat split; auto; lia.
Qed.

(** The log of the loop, cut into one part per topic: the query for the
    topic, then at most one LLM call. *)
Lemma scrape_loop_segments (self : FreeNewsScraper) (topics : list string) :
  ∀ results : gmap string string,
    ∃ segments,
      log_of (for_each (scrape_topic w env self) topics results) = concat segments
      ∧ Forall2
          (fun topic segment =>
             ∃ llm,
               segment
               = HttpGet (base_url self) (default EmptyString (api_key self)) topic
                   :: llm
               ∧ (llm = []
                  ∨ ∃ headlines,
                      llm = [CallGemini 1000 (news_script_prompt w headlines)]))
          topics segments.
Proof.
  induction topics as [|t topics IH]; intros results.
  - exists []. split; [done|constructor].
  - destruct (scrape_topic_run w env self results t) as (v & log1 & Hstep & _).
    destruct (scrape_topic_log self results t) as (llm & Hlog & Hllm).
    rewrite Hstep in Hlog. simpl in Hlog. subst log1.
    destruct (IH (<[t := v]> results)) as (segments & Hconcat & Hall).
    exists ((HttpGet (base_url self) (default EmptyString (api_key self)) t :: llm)
              :: segments).
    split.
    + simpl for_each. rewrite Hstep, bind_ok. unfold log_of in *. cbn [snd].
      by rewrite Hconcat.
    + constructor; [by exists llm|done].
Qed.

(** X6: with a key, the scraper sends exactly one NewsAPI query per input
    topic, in the order of the list (a repeated topic is queried again),
    calls the LLM at most once per topic, and records nothing else: the log
    is, topic by topic, the query for the topic followed by at most one
    LLM call. *)
Theorem scrape_news_queries (self : FreeNewsScraper) (topics : list string) :
  has_api_key self = true →
  http_queries (log_of (scrape_news w env self topics)) = topics
  ∧ Forall (fun ev => scraper_event ev = true) (log_of (scrape_news w env self topics))
  ∧ length (log_of (scrape_news w env self topics)) ≤ 2 * length topics
  ∧ ∃ segments,
      log_of (scrape_news w env self topics) = concat segments
      ∧ Forall2
          (fun topic segment =>
             ∃ llm,
               segment
               = HttpGet (base_url self) (default EmptyString (api_key self)) topic
                   :: llm
               ∧ (llm = []
                  ∨ ∃ headlines,
                      llm = [CallGemini 1000 (news_script_prompt w headlines)]))
          topics segments.
Proof.
  intros Hkey. unfold scrape_news. rewrite Hkey. simpl.
  destruct (scrape_loop_run w env self topics ∅) as (results & log & Hloop & _).
  pose proof (scrape_loop_log self topics ∅) as (Hq & Hev & Hlen).
  destruct (scrape_loop_segments self topics ∅) as (segments & Hconcat & Hall).
  rewrite Hloop in Hq, Hev, Hlen, Hconcat. rewrite Hloop, bind_ok.
  unfold log_of in *. simpl in *. rewrite app_nil_r.
  repeat split; try done. by exists segments.
Qed.

(** X7: when NewsAPI answers 200 with articles none of which has a title,
    the headline text is empty and the LLM is still asked to summarize it;
    the topic's entry is whatever the LLM makes of the empty list. *)
Theorem untitled_articles_are_summarized (self : FreeNewsScraper)
    (results : gmap string string) (topic : string)
    (response : response) (data : json_body) (first : article) (rest : list article) :
  requests_get w (base_url self) (default EmptyString (api_key self)) topic
  = Ok response →
  status_code response = 200 →
  json response = Ok data →
  default [] (articles data) = first :: rest →
  Forall (fun a => truthy (default EmptyString (title a)) = false) (first :: rest) →
  scrape_topic w env self results topic
  = (Ok (<[topic := match generate_content w 1000 (news_script_prompt w EmptyString) with
                    | Ok summary => summary
                    | Raise e =>
                        "Error: "
                          +:+ str w (HTTPException 500 ("Gemini API error: " +:+ str w e))
                    end]> results),
     [HttpGet (base_url self) (default EmptyString (api_key self)) topic;
      CallGemini 1000 (news_script_prompt w EmptyString)]).
Proof.
  intros Hget H200 Hjson Harticles Huntitled.
  unfold scrape_topic, call. rewrite Hget. simpl. rewrite H200. simpl.
  rewrite Hjson. simpl. rewrite Harticles.
  rewrite (article_headlines_untitled _ Huntitled). simpl.
  unfold summarize_with_gemini_news_script, try_catch, call.
  by destruct (generate_content w 1000 _).
Qed.

End MoreScraper.

Lemma scrape_news_queries_witness :
  has_api_key (FreeNewsScraper_init env_newsapi) = true
  ∧ http_queries (log_of (scrape_news world_up env_newsapi
                            (FreeNewsScraper_init env_newsapi) ["AI"; "Space"; "AI"]))
    = ["AI"; "Space"; "AI"]
  ∧ Forall (fun ev => scraper_event ev = true)
           (log_of (scrape_news world_up env_newsapi
                      (FreeNewsScraper_init env_newsapi) ["AI"; "Space"; "AI"]))
  ∧ length (log_of (scrape_news world_up env_newsapi
                      (FreeNewsScraper_init env_newsapi) ["AI"; "Space"; "AI"]))
    ≤ 2 * length ["AI"; "Space"; "AI"]
  ∧ ∃ segments,
      log_of (scrape_news world_up env_newsapi
                (FreeNewsScraper_init env_newsapi) ["AI"; "Space"; "AI"])
      = concat segments
      ∧ Forall2
          (fun topic segment =>
             ∃ llm,
               segment
               = HttpGet (base_url (FreeNewsScraper_init env_newsapi))
                         (default EmptyString (api_key (FreeNewsScraper_init env_newsapi)))
                         topic
                   :: llm
               ∧ (llm = []
                  ∨ ∃ headlines,
                      llm = [CallGemini 1000 (news_script_prompt world_up headlines)]))
          ["AI"; "Space"; "AI"] segments.
Proof.
  split; [reflexivity|].
  apply (scrape_news_queries world_up env_newsapi (FreeNewsScraper_init env_newsapi)).
  reflexivity.
Defined.

Lemma untitled_articles_are_summarized_witness :
  scrape_topic world_untitled env_newsapi (FreeNewsScraper_init env_newsapi) ∅ "AI"
  = (Ok {[ "AI" := "Good evening." ]},
     [HttpGet "https://newsapi.org/v2/everything" "na-key" "AI";
      CallGemini 1000 (news_script_prompt world_untitled EmptyString)]).
Proof.
  apply (untitled_articles_are_summarized world_untitled env_newsapi
           (FreeNewsScraper_init env_newsapi) ∅ "AI"
           {| status_code := 200;
              json := Ok {| articles :=
                              Some [{| title := None;
                                       description := Some "Shares rose" |}] |} |}
           {| articles := Some [{| title := None; description := Some "Shares rose" |}] |}
           {| title := None; description := Some "Shares rose" |} []);
    try reflexivity.
  constructor; [reflexivity|constructor].
Defined.

(** ** The request handler, stage by stage *)

Section MoreBackend.

Import PyStr.

Context (w : World) (env : environ).

(** The script and audio stage in closed form. *)
Lemma summarize_and_render_run (request : NewsRequest)
    (news_data reddit_data : dataset) :
  let prompt := broadcast_prompt w news_data reddit_data (topics request) in
  let script := match generate_content w 4000 prompt with
                | Ok text => text
                | Raise _ => fallback_script (topics request)
                end in
  summarize_and_render w env request news_data reddit_data
  = if truthy script then
      match gtts_save w script with
      | Ok audio_path =>
          match (if truthy audio_path then read_bytes w audio_path else None) with
          | Some audio_bytes =>
              (Ok {| content := audio_bytes; media_type := "audio/mpeg" |},
               [CallGemini 4000 prompt; CallTTS script; ReadFile audio_path])
          | None =>
              (Raise (HTTPException 500 "Failed to generate audio file"),
               [CallGemini 4000 prompt; CallTTS script])
          end
      | Raise e =>
          (Raise (Exception ("gTTS failed: " +:+ str w e)),
           [CallGemini 4000 prompt; CallTTS script])
      end
    else (Raise (HTTPException 500 "Failed to generate news script"),
          [CallGemini 4000 prompt]).
Proof.
  intros prompt script. unfold summarize_and_render.
  rewrite generate_broadcast_news_run. fold prompt. fold script.
  rewrite bind_ok. destruct (truthy script); [|done]. simpl.
  unfold tts_to_audio, call.
  destruct (gtts_save w script) as [path|e]; [|done]. simpl.
  by destruct (if truthy path then read_bytes w path else None).
Qed.

Lemma summarize_and_render_events (request : NewsRequest)
    (news_data reddit_data : dataset) :
  Forall (fun ev => render_event ev = true)
         (log_of (summarize_and_render w env request news_data reddit_data)).
Proof.
  rewrite summarize_and_render_run. cbv zeta.
  destruct (truthy _); [|by repeat constructor].
  destruct (gtts_save w _) as [path|e]; [|by repeat constructor].
  destruct (if truthy path then read_bytes w path else None);
    by repeat constructor.
Qed.

Lemma scrape_news_events (self : FreeNewsScraper) (topics : list string) :
  Forall (fun ev => scraper_event ev = true) (log_of (scrape_news w env self topics)).
Proof.
  unfold scrape_news. destruct (has_api_key self); simpl; [|constructor].
  destruct (scrape_loop_run w env self topics ∅) as (results & log & Hloop & _).
  pose proof (scrape_loop_log w env self topics ∅) as (_ & Hev & _).
  rewrite Hloop in Hev. rewrite Hloop, bind_ok. unfold log_of in *. simpl in *.
  by rewrite app_nil_r.
Qed.

Lemma get_news_data_events (topics : list string) :
  Forall (fun ev => content_event ev = true) (log_of (get_news_data w env topics)).
Proof.
  rewrite get_news_data_run. cbv zeta.
  assert (Forall (fun ev => content_event ev = true)
                 (log_of (scrape_news w env (FreeNewsScraper_init env) topics)))
    as Hscrape.
  { eapply Forall_impl; [apply scrape_news_events|].
    intros ev Hev. by destruct ev as [[]| | | |]. }
  destruct (brightdata_eligible env);
    [destruct (news_scraper_scrape_news w topics)|];
    destruct (newsapi_eligible env); unfold log_of; simpl;
    repeat constructor; done.
Qed.

(** X8: whatever goes wrong in a request, the handler raises an
    [HTTPException] with status 500; the 503 raised inside it never
    reaches the caller as such. *)
Theorem every_failure_is_500 (request : NewsRequest) (e : exn) :
  outcome (generate_news_audio w env request) = Raise e →
  ∃ detail, e = HTTPException 500 detail.
Proof.
  rewrite generate_news_audio_run. cbv zeta.
  destruct (if bool_decide (source_type request ∈ ["news"; "both"])
            then get_news_data w env (topics request) else (Ok ∅, []))
    as [[news_data|e'] log]; [|intros [= <-]; by eexists].
  destruct (negb _ && negb _); [intros [= <-]; by eexists|].
  unfold outcome at 1. cbn [fst].
  destruct (outcome (summarize_and_render _ _ _ _ _)); [done|].
  intros [= <-]. by eexists.
Qed.

(** X9: a source type other than news, reddit and both collects nothing: the
    request fails with status 500 and no call leaves the process. *)
Theorem unknown_source_type_fails (request : NewsRequest) :
  source_type request ∉ ["news"; "reddit"; "both"] →
  generate_news_audio w env request
  = (Raise (HTTPException 500
              (str w (HTTPException 503
                        "Unable to collect any data from configured sources"))),
     []).
Proof.
  intros Hmode. rewrite generate_news_audio_run.
  rewrite !bool_decide_eq_false_2; [done| |];
    intros Hin; apply Hmode; set_solver.
Qed.

(** X10: in discussion-only mode a Reddit source that fails, or that returns
    an empty dictionary, ends the request with status 500 right after the
    Reddit call; no content provider, LLM or speech call is made. *)
Theorem reddit_only_failure_aborts (request : NewsRequest) :
  source_type request = "reddit" →
  (∃ e, scrape_reddit_topics w (topics request) = Raise e)
  ∨ scrape_reddit_topics w (topics request) = Ok ∅ →
  generate_news_audio w env request
  = (Raise (HTTPException 500
              (str w (HTTPException 503
                        "Unable to collect any data from configured sources"))),
     [Invoke Reddit (topics request)]).
Proof.
  intros Hmode Hreddit. rewrite generate_news_audio_run, Hmode.
  rewrite bool_decide_eq_false_2
    by (intros [?|[?|?%elem_of_nil]%elem_of_cons]%elem_of_cons; done).
  rewrite bool_decide_eq_true_2 by (apply elem_of_cons; by left).
  by destruct Hreddit as [[e ->]| ->].
Qed.

(** The log of the collection stage, and what it can hold. *)
Lemma collection_events (request : NewsRequest) (log : list event) (r : result dataset) :
  (if bool_decide (source_type request ∈ ["news"; "both"])
   then get_news_data w env (topics request) else (Ok ∅, [])) = (r, log) →
  Forall (fun ev => content_event ev = true) log
  ∧ (source_type request ∉ ["news"; "both"] → log = []).
Proof.
  case_bool_decide as Hmode.
  - intros Hget. pose proof (get_news_data_events (topics request)) as Hev.
    rewrite Hget in Hev. by split.
  - intros [= <- <-]. by split.
Qed.

(** X11: the log of a request is made of three consecutive parts: the calls
    of the content category, then at most the one call to Reddit, then the
    calls of the script and audio stage.  A request that does not ask for
    news has no content call, one that does not ask for Reddit has no
    Reddit call. *)
Theorem stages_in_order (request : NewsRequest) :
  ∃ content_log reddit_log render_log,
    log_of (generate_news_audio w env request)
    = content_log ++ reddit_log ++ render_log
    ∧ Forall (fun ev => content_event ev = true) content_log
    ∧ (reddit_log = [] ∨ reddit_log = [Invoke Reddit (topics request)])
    ∧ Forall (fun ev => render_event ev = true) render_log
    ∧ (source_type request ∉ ["news"; "both"] → content_log = [])
    ∧ (source_type request ∉ ["reddit"; "both"] → reddit_log = []).
Proof.
  rewrite generate_news_audio_run. cbv zeta.
  destruct (if bool_decide (source_type request ∈ ["news"; "both"])
            then get_news_data w env (topics request) else (Ok ∅, []))
    as [r log] eqn:Hget.
  destruct (collection_events request log r Hget) as [Hev Hnil].
  destruct r as [news_data|e].
  - exists log, (if bool_decide (source_type request ∈ ["reddit"; "both"])
                 then [Invoke Reddit (topics request)] else []).
    assert ((if bool_decide (source_type request ∈ ["reddit"; "both"])
             then [Invoke Reddit (topics request)] else [])
            = [] ∨ (if bool_decide (source_type request ∈ ["reddit"; "both"])
                    then [Invoke Reddit (topics request)] else [])
                   = [Invoke Reddit (topics request)]) as Hr
      by (destruct (bool_decide (source_type request ∈ ["reddit"; "both"])); auto).
    assert (source_type request ∉ ["reddit"; "both"] →
            (if bool_decide (source_type request ∈ ["reddit"; "both"])
             then [Invoke Reddit (topics request)] else []) = []) as Hr'
      by (intros ?; by rewrite bool_decide_eq_false_2).
    destruct (negb _ && negb _).
    + exists []. unfold log_of. simpl. by rewrite app_nil_r.
    + eexists. unfold log_of at 1. cbn [snd]. rewrite <- app_assoc.
      split; [reflexivity|]. split; [done|]. split; [done|].
      split; [apply summarize_and_render_events|done].
  - exists log, [], []. unfold log_of. simpl. rewrite app_nil_r.
    repeat split; auto.
Qed.

(** X12: a request that succeeds answers with media type audio/mpeg and
    with the bytes of the very file gTTS wrote for the script; the script is
    not empty and is the LLM's text or the fallback script, and the calls
    for script, speech and file are the last three of the log. *)
Theorem successful_request (request : NewsRequest) (audio : Response) :
  outcome (generate_news_audio w env request) = Ok audio →
  media_type audio = "audio/mpeg"
  ∧ ∃ collected prompt script audio_path,
      log_of (generate_news_audio w env request)
      = collected ++ [CallGemini 4000 prompt; CallTTS script; ReadFile audio_path]
      ∧ Forall (fun ev => content_event ev || reddit_event ev = true) collected
      ∧ script ≠ EmptyString
      ∧ (generate_content w 4000 prompt = Ok script
         ∨ script = fallback_script (topics request))
      ∧ gtts_save w script = Ok audio_path
      ∧ read_bytes w audio_path = Some (content audio).
Proof.
  rewrite generate_news_audio_run. cbv zeta.
  destruct (if bool_decide (source_type request ∈ ["news"; "both"])
            then get_news_data w env (topics request) else (Ok ∅, []))
    as [r log] eqn:Hget.
  destruct (collection_events request log r Hget) as [Hev _].
  destruct r as [news_data|e]; [|done].
  destruct (negb _ && negb _); [done|].
  rewrite summarize_and_render_run. cbv zeta.
  set (rd := if bool_decide (source_type request ∈ ["reddit"; "both"])
             then match scrape_reddit_topics w (topics request) with
                  | Ok reddit => reddit
                  | Raise _ => ∅
                  end
             else ∅).
  set (prompt := broadcast_prompt w news_data rd (topics request)).
  assert (match generate_content w 4000 prompt with
          | Ok text => text
          | Raise _ => fallback_script (topics request)
          end = match generate_content w 4000 prompt with
                | Ok text => text
                | Raise _ => fallback_script (topics request)
                end
          ∧ (generate_content w 4000 prompt
             = Ok match generate_content w 4000 prompt with
                  | Ok text => text
                  | Raise _ => fallback_script (topics request)
                  end
             ∨ match generate_content w 4000 prompt with
               | Ok text => text
               | Raise _ => fallback_script (topics request)
               end = fallback_script (topics request))) as [_ Hscript]
    by (destruct (generate_content w 4000 prompt); auto).
  set (script := match generate_content w 4000 prompt with
                 | Ok text => text
                 | Raise _ => fallback_script (topics request)
                 end) in *.
  destruct (truthy script) eqn:Htruthy; [|done].
  destruct (gtts_save w script) as [path|e] eqn:Hsave; [|done].
  destruct (truthy path) eqn:Hpath; [|done].
  destruct (read_bytes w path) as [bytes|] eqn:Hread; [|done].
  unfold outcome, log_of. simpl. intros [= <-]. split; [done|].
  exists (log ++ (if bool_decide (source_type request ∈ ["reddit"; "both"])
                  then [Invoke Reddit (topics request)] else [])),
         prompt, script, path.
  split; [done|]. split.
  - apply Forall_app. split.
    + eapply Forall_impl; [exact Hev|]. by intros ev ->.
    + destruct (bool_decide (source_type request ∈ ["reddit"; "both"]));
        by repeat constructor.
  - split; [by apply truthy_true|]. done.
Qed.

Lemma content_not_render (ev : event) :
  content_event ev = true → render_event ev = false.
Proof.
  destruct ev as [[]| |n ?| |]; simpl; try done.
  intros ->%Nat.eqb_eq. by vm_compute.
Qed.

Lemma reddit_not_render (ev : event) :
  reddit_event ev = true → render_event ev = false.
Proof. by destruct ev as [[]| | | |]. Qed.

(** A call of the script and audio stage in the log means that stage ran. *)
Lemma render_stage_reached (request : NewsRequest) (ev : event) :
  render_event ev = true →
  ev ∈ log_of (generate_news_audio w env request) →
  ∃ news_data reddit_data collected,
    generate_news_audio w env request
    = (match outcome (summarize_and_render w env request news_data reddit_data) with
       | Ok audio => Ok audio
       | Raise e => Raise (HTTPException 500 (str w e))
       end,
       collected ++ log_of (summarize_and_render w env request news_data reddit_data))
    ∧ Forall (fun ev => render_event ev = false) collected.
Proof.
  intros Hrender. rewrite generate_news_audio_run. cbv zeta.
  destruct (if bool_decide (source_type request ∈ ["news"; "both"])
            then get_news_data w env (topics request) else (Ok ∅, []))
    as [r log] eqn:Hget.
  destruct (collection_events request log r Hget) as [Hev _].
  assert (Forall (fun ev => render_event ev = false) log) as Hlog
    by (eapply Forall_impl; [exact Hev|]; apply content_not_render).
  assert (Forall (fun ev => render_event ev = false)
            (log ++ (if bool_decide (source_type request ∈ ["reddit"; "both"])
                     then [Invoke Reddit (topics request)] else []))) as Hcollected.
  { apply Forall_app. split; [done|].
    destruct (bool_decide (source_type request ∈ ["reddit"; "both"]));
      by repeat constructor. }
  assert (∀ l, Forall (fun ev => render_event ev = false) l → ev ∈ l → False)
    as Hnot.
  { intros l Hl Hin. rewrite Forall_forall in Hl. apply Hl in Hin. congruence. }
  destruct r as [news_data|e]; [|unfold log_of; simpl; intros Hin; by destruct (Hnot log)].
  destruct (negb _ && negb _).
  - unfold log_of. simpl. intros Hin. by destruct (Hnot _ Hcollected).
  - intros _. by eexists _, _, _.
Qed.

(** The one LLM call and the one speech call of the script and audio
    stage. *)
Lemma render_log_calls (request : NewsRequest) (news_data reddit_data : dataset) :
  let prompt := broadcast_prompt w news_data reddit_data (topics request) in
  let script := match generate_content w 4000 prompt with
                | Ok text => text
                | Raise _ => fallback_script (topics request)
                end in
  let log := log_of (summarize_and_render w env request news_data reddit_data) in
  (∀ p, CallGemini 4000 p ∈ log → p = prompt)
  ∧ (∀ text, CallTTS text ∈ log ↔ text = script ∧ truthy script = true).
Proof.
  intros prompt script log. subst log. rewrite summarize_and_render_run.
  fold prompt. fold script.
  destruct (truthy script);
    [destruct (gtts_save w script) as [path|e];
     [destruct (if truthy path then read_bytes w path else None)|]|];
    unfold log_of; cbn [snd]; split; intros x;
    rewrite ?elem_of_cons, ?elem_of_nil; naive_solver.
Qed.

(** X13: once the summarizer has been called, an LLM that answers with the
    empty string ends the request with status 500 before any speech call,
    while an LLM that raises does not: the fallback script goes to speech. *)
Theorem empty_script_versus_failed_llm (request : NewsRequest) (prompt : string) :
  CallGemini 4000 prompt ∈ log_of (generate_news_audio w env request) →
  (generate_content w 4000 prompt = Ok EmptyString →
   outcome (generate_news_audio w env request)
   = Raise (HTTPException 500
              (str w (HTTPException 500 "Failed to generate news script")))
   ∧ ∀ text, CallTTS text ∉ log_of (generate_news_audio w env request))
  ∧ (∀ e, generate_content w 4000 prompt = Raise e →
          CallTTS (fallback_script (topics request))
          ∈ log_of (generate_news_audio w env request)).
Proof.
  intros Hin.
  destruct (render_stage_reached request _
              (eq_refl : render_event (CallGemini 4000 prompt) = true) Hin)
    as (nd & rd & collected & Hrun & Hcollected).
  rewrite Hrun in Hin |- *. unfold log_of at 1 in Hin. cbn [snd] in Hin.
  rewrite Forall_forall in Hcollected.
  apply elem_of_app in Hin as [Hin|Hin]; [by apply Hcollected in Hin|].
  destruct (render_log_calls request nd rd) as [Hprompt Htts].
  apply Hprompt in Hin. subst prompt.
  assert (∀ text, CallTTS text ∈ collected → False) as Hnotts
    by (intros text Hc; by apply Hcollected in Hc).
  split.
  - intros Hempty. rewrite Hempty in Htts. split.
    + rewrite summarize_and_render_run. cbv zeta. by rewrite Hempty.
    + intros text. unfold log_of at 1. cbn [snd].
      intros [Hc|Hc]%elem_of_app; [by eapply Hnotts|].
      by apply Htts in Hc as [_ ?].
  - intros e Hraise. rewrite Hraise in Htts.
    unfold log_of at 1. cbn [snd]. apply elem_of_app. right.
    apply Htts. split; [done|]. apply fallback_script_truthy.
Qed.

(** X14: a speech stage that fails is reported, not swallowed: when gTTS
    raises, the request fails with the detail "gTTS failed: ..." and the
    message of the error; when the file gTTS named is missing, it fails with
    the audio-file detail. *)
Theorem render_failures_surface (request : NewsRequest) (script : string) :
  CallTTS script ∈ log_of (generate_news_audio w env request) →
  (∀ e, gtts_save w script = Raise e →
        outcome (generate_news_audio w env request)
        = Raise (HTTPException 500 ("gTTS failed: " +:+ str w e)))
  ∧ (∀ audio_path,
        gtts_save w script = Ok audio_path →
        truthy audio_path = false ∨ read_bytes w audio_path = None →
        outcome (generate_news_audio w env request)
        = Raise (HTTPException 500
                   (str w (HTTPException 500 "Failed to generate audio file")))).
Proof.
  intros Hin.
  destruct (render_stage_reached request _
              (eq_refl : render_event (CallTTS script) = true) Hin)
    as (nd & rd & collected & Hrun & Hcollected).
  rewrite Hrun in Hin |- *. unfold log_of at 1 in Hin. cbn [snd] in Hin.
  rewrite Forall_forall in Hcollected.
  apply elem_of_app in Hin as [Hin|Hin]; [by apply Hcollected in Hin|].
  destruct (render_log_calls request nd rd) as [_ Htts].
  apply Htts in Hin as [-> Htruthy].
  rewrite summarize_and_render_run. cbv zeta. rewrite Htruthy. split.
  - by intros e ->.
  - intros path -> [->| Hread]; [done|]. destruct (truthy path); by rewrite ?Hread.
Qed.

Lemma newsapi_invoked_inside (request : NewsRequest) (ts : list string) :
  Invoke NewsAPI ts ∈ log_of (generate_news_audio w env request) →
  bool_decide (source_type request ∈ ["news"; "both"]) = true
  ∧ Invoke NewsAPI ts ∈ log_of (get_news_data w env (topics request)).
Proof.
  rewrite generate_news_audio_run. cbv zeta.
  assert (∀ l, Forall (fun ev => render_event ev = true) l → Invoke NewsAPI ts ∈ l → False)
    as Hrender.
  { intros l Hl Hin. rewrite Forall_forall in Hl. by apply Hl in Hin. }
  assert (Invoke NewsAPI ts
          ∈ (if bool_decide (source_type request ∈ ["reddit"; "both"])
             then [Invoke Reddit (topics request)] else []) → False) as Hreddit.
  { destruct (bool_decide (source_type request ∈ ["reddit"; "both"]));
      rewrite ?elem_of_cons, elem_of_nil; naive_solver. }
  destruct (bool_decide (source_type request ∈ ["news"; "both"])).
  - destruct (get_news_data w env (topics request)) as [[nd|e] log];
      [|by unfold log_of].
    destruct (negb _ && negb _); unfold log_of at 1; cbn [snd];
      rewrite ?elem_of_app; intros Hin; (split; [done|]); unfold log_of; simpl.
    + naive_solver.
    + destruct Hin as [[?|?]|Hin]; [done|naive_solver|].
      exfalso. eapply Hrender; [apply summarize_and_render_events|exact Hin].
  - destruct (negb _ && negb _); unfold log_of at 1; cbn [snd];
      rewrite ?elem_of_app, ?elem_of_nil; intros Hin; exfalso.
    + naive_solver.
    + destruct Hin as [[[]|?]|Hin]; [naive_solver|].
      eapply Hrender; [apply summarize_and_render_events|exact Hin].
Qed.

Lemma newsapi_invoked_returns (topics : list string) (ts : list string) :
  Invoke NewsAPI ts ∈ log_of (get_news_data w env topics) →
  ∃ results log,
    get_news_data w env topics = (Ok {[ "news_analysis" := results ]}, log).
Proof.
  rewrite get_news_data_run. cbv zeta.
  destruct (scrape_news_run w env (FreeNewsScraper_init env) topics)
    as (results & log & ->).
  destruct (brightdata_eligible env);
    [destruct (news_scraper_scrape_news w topics)|];
    destruct (newsapi_eligible env); unfold log_of, outcome; simpl;
    rewrite ?elem_of_cons, ?elem_of_nil; try naive_solver; intros _; by eexists _, _.
Qed.

(** X15: once NewsAPI has been invoked for a request, the collection stage
    cannot end the request: the summarizer is always called, even when every
    topic's fetch failed and the dataset holds stubs only. *)
Theorem newsapi_data_reaches_summarizer (request : NewsRequest) (ts : list string) :
  Invoke NewsAPI ts ∈ log_of (generate_news_audio w env request) →
  ∃ prompt, CallGemini 4000 prompt ∈ log_of (generate_news_audio w env request).
Proof.
  intros Hin. apply newsapi_invoked_inside in Hin as [Hwant Hin].
  apply newsapi_invoked_returns in Hin as (results & log & Hget).
  rewrite generate_news_audio_run, Hwant, Hget. cbv zeta.
  rewrite singleton_dataset_truthy. simpl.
  destruct (summarize_and_render_log w env request {[ "news_analysis" := results ]}
              (if bool_decide (source_type request ∈ ["reddit"; "both"])
               then match scrape_reddit_topics w (topics request) with
                    | Ok reddit => reddit
                    | Raise _ => ∅
                    end
               else ∅)) as (rest & Hlog).
  eexists. rewrite Hlog. unfold log_of. cbn [snd].
  apply elem_of_app. right. apply list_elem_of_here.
Qed.

(** X16: when the content category falls back to NewsAPI, the scraper it
    builds always has its key, so the mock paragraphs are never served:
    every topic has been queried and holds the summary or the stub of its
    own fetch. *)
Theorem newsapi_fallback_is_real (topics : list string) :
  newsapi_eligible env = true →
  brightdata_eligible env = false
  ∨ (∃ e, news_scraper_scrape_news w topics = Raise e) →
  ∃ results,
    outcome (get_news_data w env topics) = Ok {[ "news_analysis" := results ]}
    ∧ dom results = list_to_set topics
    ∧ Forall (fun topic =>
                ∃ v, results !! topic = Some v
                     ∧ topic_entry w (FreeNewsScraper_init env) topic v)
             topics
    ∧ http_queries (log_of (get_news_data w env topics)) = topics.
Proof.
  intros Hnewsapi Hbright. rewrite get_news_data_run. cbv zeta.
  rewrite Hnewsapi.
  assert (has_api_key (FreeNewsScraper_init env) = true) as Hkey by exact Hnewsapi.
  unfold scrape_news. rewrite Hkey. simpl negb. cbv iota.
  destruct (scrape_loop_run w env (FreeNewsScraper_init env) topics ∅)
    as (results & log & Hloop & Hdom & Hin & _).
  pose proof (scrape_loop_log w env (FreeNewsScraper_init env) topics ∅) as (Hq & _).
  rewrite Hloop in Hq. rewrite Hloop, bind_ok. unfold log_of, outcome in *.
  simpl in *. rewrite app_nil_r.
  assert (dom results = list_to_set topics) as Hdom' by (rewrite Hdom; set_solver).
  exists results.
  destruct Hbright as [->|[e ->]]; [|destruct (brightdata_eligible env)];
    simpl; rewrite ?Hq; repeat split; try done; by apply Forall_forall.
Qed.

End MoreBackend.

Lemma every_failure_is_500_witness :
  outcome (generate_news_audio world_down env_all
             {| topics := ["AI"]; source_type := "both" |})
  = Raise (HTTPException 500 "gTTS failed: no network")
  ∧ ∃ detail, HTTPException 500 "gTTS failed: no network" = HTTPException 500 detail.
Proof.
  split; [reflexivity|].
  exact (every_failure_is_500 world_down env_all
           {| topics := ["AI"]; source_type := "both" |} _ eq_refl).
Defined.

Lemma unknown_source_type_fails_witness :
  generate_news_audio world_up env_all {| topics := ["AI"]; source_type := "twitter" |}
  = (Raise (HTTPException 500 "Unable to collect any data from configured sources"),
     []).
Proof.
  apply (unknown_source_type_fails world_up env_all
           {| topics := ["AI"]; source_type := "twitter" |}).
  intros Hin. repeat (apply elem_of_cons in Hin as [Hin|Hin]; [discriminate|]).
  by apply elem_of_nil in Hin.
Defined.

Lemma reddit_only_failure_aborts_witness :
  generate_news_audio world_down env_all {| topics := ["AI"]; source_type := "reddit" |}
  = (Raise (HTTPException 500 "Unable to collect any data from configured sources"),
     [Invoke Reddit ["AI"]]).
Proof.
  apply (reddit_only_failure_aborts world_down env_all
           {| topics := ["AI"]; source_type := "reddit" |} eq_refl).
  left. by eexists.
Defined.

Lemma successful_request_witness :
  outcome (generate_news_audio world_up env_all
             {| topics := ["AI"]; source_type := "both" |})
  = Ok {| content := "ID3"; media_type := "audio/mpeg" |}
  ∧ ∃ collected prompt script audio_path,
      log_of (generate_news_audio world_up env_all
                {| topics := ["AI"]; source_type := "both" |})
      = collected ++ [CallGemini 4000 prompt; CallTTS script; ReadFile audio_path]
      ∧ Forall (fun ev => content_event ev || reddit_event ev = true) collected
      ∧ script ≠ EmptyString
      ∧ (generate_content world_up 4000 prompt = Ok script
         ∨ script = fallback_script ["AI"])
      ∧ gtts_save world_up script = Ok audio_path
      ∧ read_bytes world_up audio_path = Some "ID3".
Proof.
  split; [reflexivity|].
  exact (proj2 (successful_request world_up env_all
                  {| topics := ["AI"]; source_type := "both" |}
                  {| content := "ID3"; media_type := "audio/mpeg" |} eq_refl)).
Defined.

Lemma empty_script_versus_failed_llm_witness :
  outcome (generate_news_audio world_mute env_all
             {| topics := ["AI"]; source_type := "both" |})
  = Raise (HTTPException 500 "Failed to generate news script")
  ∧ ∀ text,
      CallTTS text ∉ log_of (generate_news_audio world_mute env_all
                               {| topics := ["AI"]; source_type := "both" |}).
Proof.
  apply (proj1 (empty_script_versus_failed_llm world_mute env_all
                  {| topics := ["AI"]; source_type := "both" |}
                  (broadcast_prompt world_mute
                     {[ "news_analysis" := {[ "AI" := "Premium report" ]} ]}
                     {[ "reddit_analysis" := {[ "AI" := "Users are excited" ]} ]}
                     ["AI"])
                  ltac:(apply list_elem_of_In; vm_compute; auto 10))).
  reflexivity.
Defined.

Lemma render_failures_surface_witness :
  outcome (generate_news_audio world_down env_all
             {| topics := ["AI"]; source_type := "both" |})
  = Raise (HTTPException 500 "gTTS failed: no network").
Proof.
  apply (proj1 (render_failures_surface world_down env_all
                  {| topics := ["AI"]; source_type := "both" |}
                  (fallback_script ["AI"])
                  ltac:(apply list_elem_of_In; vm_compute; auto 10))
               (Exception "no network")).
  reflexivity.
Defined.

Lemma newsapi_data_reaches_summarizer_witness :
  ∃ prompt,
    CallGemini 4000 prompt
    ∈ log_of (generate_news_audio world_down env_newsapi
                {| topics := ["AI"]; source_type := "news" |}).
Proof.
  apply (newsapi_data_reaches_summarizer world_down env_newsapi
           {| topics := ["AI"]; source_type := "news" |} ["AI"]).
  apply list_elem_of_In. vm_compute. auto 10.
Defined.

Lemma newsapi_fallback_is_real_witness :
  ∃ results,
    outcome (get_news_data world_down env_all ["AI"; "Space"])
    = Ok {[ "news_analysis" := results ]}
    ∧ dom results = list_to_set ["AI"; "Space"]
    ∧ Forall (fun topic =>
                ∃ v, results !! topic = Some v
                     ∧ topic_entry world_down (FreeNewsScraper_init env_all) topic v)
             ["AI"; "Space"]
    ∧ http_queries (log_of (get_news_data world_down env_all ["AI"; "Space"]))
      = ["AI"; "Space"].
Proof.
  apply (newsapi_fallback_is_real world_down env_all ["AI"; "Space"]);
    [reflexivity|].
  right. by eexists.
Defined.

(** ** The status query and the content category agree *)

(** X17: what the status query reports is what the content category does,
    whatever the world: "degraded" means every content fetch raises the 503
    without any call; "newsapi" means it invokes NewsAPI first and always
    returns a dataset; "brightdata" means BrightData is invoked first. *)
Theorem health_predicts_content (env : environ) :
  (status (health_check env) = "degraded" →
   ∀ w topics,
     get_news_data w env topics = (Raise (HTTPException 503 no_source_detail), []))
  ∧ (news_source (health_check env) = "newsapi" →
     ∀ w topics,
       ∃ results log,
         get_news_data w env topics
         = (Ok {[ "news_analysis" := results ]}, Invoke NewsAPI topics :: log))
  ∧ (news_source (health_check env) = "brightdata" →
     ∀ w topics,
       head (log_of (get_news_data w env topics)) = Some (Invoke BrightData topics)).
Proof.
  unfold health_check.
  fold (brightdata_eligible env). fold (newsapi_eligible env).
  split; [|split]; intros Hreport w topics; rewrite get_news_data_run; cbv zeta;
    destruct (scrape_news_run w env (FreeNewsScraper_init env) topics)
      as (results & log & ->);
    destruct (brightdata_eligible env); destruct (newsapi_eligible env);
    simpl in Hreport; try done;
    try destruct (news_scraper_scrape_news w topics); try done;
    by eexists _, _.
Qed.

Lemma health_predicts_content_witness :
  get_news_data world_up ∅ ["AI"] = (Raise (HTTPException 503 no_source_detail), []).
Proof.
  exact (proj1 (health_predicts_content ∅) eq_refl world_up ["AI"]).
Defined.

(** ** Stubs and the error-marker filter *)

Section StubFilter.

Import PyStr.

(** X18: of the stubs the free scraper stores, only those of the exception
    path (they start with the error marker) are kept out of the prompt.  The
    stubs for no articles, a rate limit and a bad status do not start with
    the marker and are handed to the LLM as official news content. *)
Theorem stubs_in_the_prompt (results : gmap string string) (reddit_data : dataset)
    (topic v : string) :
  results !! topic = Some v →
  (startswith v "Error:" = true →
   topic_block {[ "news_analysis" := results ]} reddit_data topic
   = topic_block ∅ reddit_data topic)
  ∧ (v ∈ ["No recent news found for " +:+ topic;
          "Rate limit exceeded for " +:+ topic +:+ " news";
          "Error fetching " +:+ topic +:+ " news"] →
     contains (topic_block {[ "news_analysis" := results ]} reddit_data topic)
              ("OFFICIAL NEWS CONTENT:" +:+ nl +:+ v))
  ∧ (∀ msg, startswith ("Error: " +:+ msg) "Error:" = true).
Proof.
  intros Hv.
  assert (get_str (get_dict ({[ "news_analysis" := results ]} : dataset) "news_analysis")
                  topic = v) as Hnews.
  { unfold get_str, get_dict. rewrite lookup_singleton_eq. simpl. by rewrite Hv. }
  split; [|split].
  - intros Hmarker. rewrite !topic_block_cases. cbv zeta.
    assert (get_str (get_dict (∅ : dataset) "news_analysis") topic = EmptyString)
      as Hnone.
    { unfold get_str, get_dict. rewrite lookup_empty. simpl. by rewrite lookup_empty. }
    by rewrite Hnews, Hnone, Hmarker, andb_false_r.
  - intros Hstub.
    assert (truthy v && negb (startswith v "Error:") = true) as Hkept.
    { repeat (apply elem_of_cons in Hstub as [->|Hstub]; [reflexivity|]).
      by apply elem_of_nil in Hstub. }
    rewrite topic_block_cases. cbv zeta. rewrite Hnews, Hkept.
    apply contains_app_l.
    destruct (truthy (get_str (get_dict reddit_data "reddit_analysis") topic));
      [apply contains_app_r|]; apply contains_refl.
  - intros msg. reflexivity.
Qed.

End StubFilter.

Lemma stubs_in_the_prompt_witness :
  PyStr.contains
    (topic_block {[ "news_analysis" := {[ "AI" := "Rate limit exceeded for AI news" ]} ]}
                 ∅ "AI")
    ("OFFICIAL NEWS CONTENT:" +:+ nl +:+ "Rate limit exceeded for AI news").
Proof.
  apply (proj1 (proj2 (stubs_in_the_prompt
                         {[ "AI" := "Rate limit exceeded for AI news" ]} ∅ "AI"
                         "Rate limit exceeded for AI news"
                         ltac:(apply lookup_singleton_eq)))).
  apply list_elem_of_further, list_elem_of_here.
Defined.

(** ** Search URLs *)

Section SearchUrls.

Import PyStr.

Example quote_plus_keyword : quote_plus "Climate Change" = "Climate+Change".
Proof. reflexivity. Qed.

Example quote_plus_reserved : quote_plus "R&D 100%" = "R%26D+100%25".
Proof. reflexivity. Qed.

Example quote_plus_latin1 :
  quote_plus (String (ascii_of_nat 233) EmptyString) = "%C3%A9".
Proof. reflexivity. Qed.

Lemma all_chars_app (p : ascii → bool) (s t : string) :
  all_chars p (s +:+ t) = all_chars p s && all_chars p t.
Proof.
  induction s as [|c s IH]; [done|].
  rewrite append_cons. simpl. by rewrite IH, andb_assoc.
Qed.

Lemma all_chars_has_char (p : ascii → bool) (c : ascii) (s : string) :
  all_chars p s = true → p c = false → has_char c s = false.
Proof.
  intros Hall Hc. induction s as [|d s IH]; [done|].
  simpl in *. apply andb_true_iff in Hall as [Hd Hs].
  rewrite (IH Hs), orb_false_r. apply Ascii.eqb_neq. intros ->. congruence.
Qed.

Lemma quote_char_query (c : ascii) : all_chars query_char (quote_char c) = true.
Proof. destruct c as [[] [] [] [] [] [] [] []]; reflexivity. Qed.

Lemma quote_plus_query (s : string) : all_chars query_char (quote_plus s) = true.
Proof.
  induction s as [|c s IH]; [done|].
  simpl. by rewrite all_chars_app, quote_char_query, IH.
Qed.

Lemma quote_char_safe (c : ascii) :
  always_safe c = true → quote_char c = String c EmptyString.
Proof. unfold quote_char. by intros ->. Qed.

(** X19: a quoted keyword is made of letters, digits, [_.-~], plus signs and
    percent signs only, so no keyword can add a parameter to the search URL
    or end its query; a keyword of always-safe characters is left as it
    is. *)
Theorem keyword_stays_in_its_parameter (keyword : string) :
  all_chars query_char (quote_plus keyword) = true
  ∧ Forall (fun c => has_char c (quote_plus keyword) = false)
           (list_ascii_of_string "&=#?/ :;@")
  ∧ (all_chars always_safe keyword = true → quote_plus keyword = keyword).
Proof.
  split; [apply quote_plus_query|]. split.
  - simpl. repeat constructor;
      (eapply all_chars_has_char; [apply quote_plus_query|reflexivity]).
  - induction keyword as [|c s IH]; [done|].
    simpl. intros [Hc Hs]%andb_true_iff.
    by rewrite quote_char_safe, IH.
Qed.

Lemma unquote_head_quote_char (c : ascii) (rest : string) :
  unquote_head (quote_char c +:+ rest) = Some (c, rest).
Proof. destruct c as [[] [] [] [] [] [] [] []]; reflexivity. Qed.

Lemma quote_plus_inj (s t : string) : quote_plus s = quote_plus t → s = t.
Proof.
  revert t. induction s as [|c s IH]; intros [|d t]; simpl; intros Heq.
  - done.
  - pose proof (unquote_head_quote_char d (quote_plus t)) as Hd.
    by rewrite <- Heq in Hd.
  - pose proof (unquote_head_quote_char c (quote_plus s)) as Hc.
    by rewrite Heq in Hc.
  - pose proof (unquote_head_quote_char c (quote_plus s)) as Hc.
    rewrite Heq, unquote_head_quote_char in Hc.
    injection Hc as -> Hrest. f_equal. by apply IH.
Qed.

Lemma append_length (s t : string) :
  String.length (s +:+ t) = String.length s + String.length t.
Proof. induction s as [|c s IH]; [done|]. rewrite append_cons. simpl. by rewrite IH. Qed.

Lemma append_inj_l (s a b : string) : s +:+ a = s +:+ b → a = b.
Proof.
  induction s as [|c s IH]; [done|].
  rewrite !append_cons. intros [= H]. by apply IH.
Qed.

Lemma append_inj_r (a b s : string) : a +:+ s = b +:+ s → a = b.
Proof.
  revert b. induction a as [|c a IH]; intros [|d b] Heq.
  - done.
  - apply (f_equal String.length) in Heq.
    rewrite append_nil_l, append_length in Heq. simpl in Heq. lia.
  - apply (f_equal String.length) in Heq.
    rewrite append_nil_l, append_length in Heq. simpl in Heq. lia.
  - rewrite !append_cons in Heq. injection Heq as -> Heq. f_equal. by apply IH.
Qed.

Lemma generate_valid_news_url_inj (keyword1 keyword2 : string) :
  generate_valid_news_url keyword1 = generate_valid_news_url keyword2 →
  keyword1 = keyword2.
Proof.
  unfold generate_valid_news_url. intros Heq.
  apply append_inj_l, append_inj_r in Heq. by apply quote_plus_inj.
Qed.

(** X20: quoting loses nothing: two keywords with the same quoted form, or
    with the same search URL, are the same keyword. *)
Theorem search_url_identifies_keyword (keyword1 keyword2 : string) :
  (quote_plus keyword1 = quote_plus keyword2 → keyword1 = keyword2)
  ∧ (generate_valid_news_url keyword1 = generate_valid_news_url keyword2 →
     keyword1 = keyword2).
Proof. split; [apply quote_plus_inj|apply generate_valid_news_url_inj]. Qed.

(** X21: the URL dictionary has exactly the keywords as keys, each with its
    own search URL, and distinct keywords never share a URL. *)
Theorem urls_to_scrape_by_keyword (list_of_keywords : list string) :
  dom (generate_news_urls_to_scrape list_of_keywords) = list_to_set list_of_keywords
  ∧ Forall (fun keyword =>
              generate_news_urls_to_scrape list_of_keywords !! keyword
              = Some (generate_valid_news_url keyword))
           list_of_keywords
  ∧ (∀ keyword1 keyword2 url,
        generate_news_urls_to_scrape list_of_keywords !! keyword1 = Some url →
        generate_news_urls_to_scrape list_of_keywords !! keyword2 = Some url →
        keyword1 = keyword2).
Proof.
  unfold generate_news_urls_to_scrape. split; [|split].
  - rewrite fold_insert_dom. set_solver.
  - apply Forall_forall. intros keyword Hin.
    by rewrite fold_insert_lookup, decide_True.
  - intros k1 k2 url. rewrite !fold_insert_lookup, !lookup_empty.
    destruct (decide (k1 ∈ list_of_keywords)); [|done].
    destruct (decide (k2 ∈ list_of_keywords)); [|done].
    intros Hurl1 Hurl2. apply generate_valid_news_url_inj. congruence.
Qed.

End SearchUrls.

Lemma search_url_identifies_keyword_witness : "AI" = "AI".
Proof.
  exact (proj2 (search_url_identifies_keyword "AI" "AI") eq_refl).
Defined.

(** ** Providers, prompts and the status query *)

Section MoreOrchestration.

Import PyStr.

Context (w : World) (env : environ).

Lemma invoked_providers_app (l1 l2 : list event) :
  invoked_providers (l1 ++ l2) = invoked_providers l1 ++ invoked_providers l2.
Proof. apply omap_app. Qed.

Lemma invoked_providers_none (p : event → bool) (log : list event) :
  (∀ q ts, p (Invoke q ts) = false) →
  Forall (fun ev => p ev = true) log →
  invoked_providers log = [].
Proof.
  intros Hp. induction 1 as [|ev log Hev _ IH]; [done|].
  destruct ev; simpl; [by rewrite Hp in Hev|done..].
Qed.

Lemma get_news_data_providers (topics : list string) :
  invoked_providers (log_of (get_news_data w env topics))
  `sublist_of` [BrightData; NewsAPI].
Proof.
  rewrite get_news_data_run. cbv zeta.
  pose proof (invoked_providers_none scraper_event _ (fun _ _ => eq_refl)
                (scrape_news_events w env (FreeNewsScraper_init env) topics)) as Hnone.
  destruct (brightdata_eligible env);
    [destruct (news_scraper_scrape_news w topics)|];
    destruct (newsapi_eligible env); unfold log_of in *; simpl;
    rewrite ?Hnone; repeat first [apply sublist_skip | apply sublist_cons | apply sublist_nil_l].
Qed.

(** X22: within one request every provider is invoked at most once, and
    always in the order BrightData, NewsAPI, Reddit: no provider is retried
    and none is tried before one of higher priority. *)
Theorem providers_once_in_order (request : NewsRequest) :
  invoked_providers (log_of (generate_news_audio w env request))
  `sublist_of` [BrightData; NewsAPI; Reddit].
Proof.
  rewrite generate_news_audio_run. cbv zeta.
  assert (∀ nd rd, invoked_providers
                     (log_of (summarize_and_render w env request nd rd)) = [])
    as Hrender.
  { intros nd rd. apply (invoked_providers_none render_event); [done|].
    apply summarize_and_render_events. }
  assert (invoked_providers
            (log_of (if bool_decide (source_type request ∈ ["news"; "both"])
                     then get_news_data w env (topics request) else (Ok ∅, [])))
          `sublist_of` [BrightData; NewsAPI]) as Hcontent.
  { destruct (bool_decide (source_type request ∈ ["news"; "both"]));
      [apply get_news_data_providers|apply sublist_nil_l]. }
  destruct (if bool_decide (source_type request ∈ ["news"; "both"])
            then get_news_data w env (topics request) else (Ok ∅, []))
    as [[nd|e] log]; unfold log_of in Hcontent; simpl in Hcontent.
  - assert (invoked_providers
              (log ++ (if bool_decide (source_type request ∈ ["reddit"; "both"])
                       then [Invoke Reddit (topics request)] else []))
            `sublist_of` [BrightData; NewsAPI; Reddit]) as Hcollected.
    { rewrite invoked_providers_app.
      change [BrightData; NewsAPI; Reddit] with ([BrightData; NewsAPI] ++ [Reddit]).
      apply sublist_app; [done|].
      destruct (bool_decide (source_type request ∈ ["reddit"; "both"]));
        [done|apply sublist_nil_l]. }
    destruct (negb _ && negb _); unfold log_of at 1; cbn [snd]; [done|].
    by rewrite invoked_providers_app, Hrender, app_nil_r.
  - unfold log_of. simpl.
    change [BrightData; NewsAPI; Reddit] with ([BrightData; NewsAPI] ++ [Reddit]).
    by apply sublist_inserts_r.
Qed.

Lemma topic_blocks_nil (news_data reddit_data : dataset) (topics : list string) :
  topic_blocks news_data reddit_data topics = [] ↔ topics = [].
Proof.
  rewrite topic_blocks_map. split; [|by intros ->].
  by destruct topics.
Qed.

(** X23: the prompt that asks for a segment on unavailable data is used for
    an empty topic list and for nothing else; with at least one topic the
    prompt asks for broadcast segments, however little data there is. *)
Theorem unavailable_prompt_only_without_topics (news_data reddit_data : dataset)
    (topics : list string) :
  (topics = [] →
   user_prompt news_data reddit_data topics
   = "Create a brief news segment explaining that current data for topics  is temporarily unavailable, but provide general context about why these topics are newsworthy.")
  ∧ (topics ≠ [] →
     startswith (user_prompt news_data reddit_data topics)
                "Create broadcast segments for these topics using available sources:"
     = true
     ∧ length (topic_blocks news_data reddit_data topics) = length topics).
Proof.
  split.
  - by intros ->.
  - intros Hne. unfold user_prompt.
    destruct (topic_blocks news_data reddit_data topics) as [|b bs] eqn:Hblocks.
    + by apply topic_blocks_nil in Hblocks.
    + split; [reflexivity|]. by rewrite <- Hblocks, topic_blocks_map, length_map.
Qed.

End MoreOrchestration.

Lemma unavailable_prompt_only_without_topics_witness :
  PyStr.startswith (user_prompt ∅ ∅ ["AI"])
    "Create broadcast segments for these topics using available sources:" = true
  ∧ length (topic_blocks ∅ ∅ ["AI"]) = length ["AI"].
Proof.
  apply (proj2 (unavailable_prompt_only_without_topics ∅ ∅ ["AI"])). discriminate.
Defined.

(** X24: the feature list names exactly one news source, the one reported
    as [news_source]; it lists the LLM exactly when [GEMINI_API_KEY] is set,
    holds no feature twice, and the message follows the status. *)
Theorem health_check_features (env : environ) :
  (∃ news_feature others,
      features (health_check env) = news_feature :: others
      ∧ (news_feature, news_source (health_check env))
        ∈ [("real_news_brightdata", "brightdata"); ("real_news_newsapi", "newsapi");
           ("no_news_source", "none_configured")]
      ∧ others `sublist_of` ["reddit_scraping"; "gemini_ai"])
  ∧ ("gemini_ai" ∈ features (health_check env) ↔ env_set env "GEMINI_API_KEY" = true)
  ∧ NoDup (features (health_check env))
  ∧ message (health_check env)
    = (if bool_decide (status (health_check env) = "healthy")
       then "NewsNinja Backend is running"
       else "NewsNinja Backend - No news sources configured").
Proof.
  unfold health_check.
  destruct (env_set env "BRIGHTDATA_API_KEY" && env_set env "BRIGHTDATA_WEB_UNLOCKER_ZONE");
    destruct (env_set env "NEWSAPI_KEY");
    destruct (env_set env "API_TOKEN" && env_set env "WEB_UNLOCKER_ZONE");
    destruct (env_set env "GEMINI_API_KEY"); simpl;
    (split;
     [eexists _, _; split; [reflexivity|]; split;
      [repeat first [apply list_elem_of_here | apply list_elem_of_further]
      |repeat first [apply sublist_skip | apply sublist_cons | apply sublist_nil_l]]|]);
    (split;
     [split;
      [intros Hin; try done;
       repeat (apply elem_of_cons in Hin as [Hin|Hin]; [discriminate|]);
       by apply elem_of_nil in Hin
      |intros Hset; try done;
       repeat first [apply list_elem_of_here | apply list_elem_of_further]]|]);
    (split; [|done]);
    repeat (apply NoDup_cons_2;
            [intros Hin;
             repeat (apply elem_of_cons in Hin as [Hin|Hin]; [discriminate|]);
             by apply elem_of_nil in Hin|]);
    apply NoDup_nil_2.
Qed.

(** ** The frontend's topic list *)

Section Frontend.

Import PyStr.

Example session_of_four_clicks :
  ui_run [ClickAdd "  AI "; ClickAdd "   "; ClickAdd "Space"; ClickRemove 0] []
  = Some ["Space"].
Proof. reflexivity. Qed.

(** Every action keeps the topics clean and traceable to an Add. *)
Lemma ui_run_invariant (all_actions actions : list ui_action) :
  ∀ session_topics session_topics',
    (∀ action, action ∈ actions → action ∈ all_actions) →
    Forall (fun topic => topic ≠ EmptyString ∧ strip topic = topic
                         ∧ ∃ new_topic, ClickAdd new_topic ∈ all_actions
                                        ∧ topic = strip new_topic)
           session_topics →
    ui_run actions session_topics = Some session_topics' →
    Forall (fun topic => topic ≠ EmptyString ∧ strip topic = topic
                         ∧ ∃ new_topic, ClickAdd new_topic ∈ all_actions
                                        ∧ topic = strip new_topic)
           session_topics'.
Proof.
  induction actions as [|action actions IH]; intros topics topics' Hsub Hclean Hrun.
  - by injection Hrun as <-.
  - simpl in Hrun.
    destruct (ui_step topics action) as [topics1|] eqn:Hstep; [|done].
    apply (IH topics1 topics'); [|clear IH Hrun|done].
    { intros a Ha. apply Hsub. by apply elem_of_cons; right. }
    destruct action as [new_topic|i]; simpl in Hstep.
    + injection Hstep as <-. unfold click_add.
      destruct (truthy (strip new_topic)) eqn:Htruthy; [|done].
      apply Forall_app. split; [done|]. constructor; [|done].
      split; [by apply truthy_true|]. split; [apply strip_idem|].
      exists new_topic. split; [|done]. apply Hsub, list_elem_of_here.
    + unfold click_remove in Hstep.
      destruct (i <? length topics); [|done]. injection Hstep as <-.
      by apply Forall_delete.
Qed.

(** X25: whatever the user does, a request the frontend posts has at least
    one topic, and each of its topics is the stripped, non-empty text of
    some Add: the backend never receives a blank or padded topic from it. *)
Theorem frontend_request_topics (actions : list ui_action)
    (session_topics : list string) (source : string) (request : NewsRequest) :
  ui_run actions [] = Some session_topics →
  click_generate source session_topics = Some request →
  topics request ≠ []
  ∧ source_type request = source
  ∧ Forall (fun topic => topic ≠ EmptyString ∧ strip topic = topic
                         ∧ ∃ new_topic, ClickAdd new_topic ∈ actions
                                        ∧ topic = strip new_topic)
           (topics request).
Proof.
  intros Hrun Hgenerate.
  pose proof (ui_run_invariant actions actions [] session_topics
                (fun _ H => H) (Forall_nil_2 _) Hrun) as Hclean.
  destruct session_topics as [|t ts]; [done|].
  injection Hgenerate as <-. by simpl.
Qed.

End Frontend.

Lemma frontend_request_topics_witness :
  topics {| topics := ["Space"]; source_type := "both" |} ≠ []
  ∧ source_type {| topics := ["Space"]; source_type := "both" |} = "both"
  ∧ Forall (fun topic =>
              topic ≠ EmptyString ∧ PyStr.strip topic = topic
              ∧ ∃ new_topic,
                  ClickAdd new_topic
                  ∈ [ClickAdd "  AI "; ClickAdd "   "; ClickAdd "Space"; ClickRemove 0]
                  ∧ topic = PyStr.strip new_topic)
           (topics {| topics := ["Space"]; source_type := "both" |}).
Proof.
  exact (frontend_request_topics
           [ClickAdd "  AI "; ClickAdd "   "; ClickAdd "Space"; ClickRemove 0]
           ["Space"] "both" _ eq_refl eq_refl).
Defined.

(** ** The environment check *)

Section CheckEnv.

Import PyStr.

Lemma substring_prefix (n : nat) (s : string) :
  ∃ hidden,
    s = String.substring 0 n s +:+ hidden
    ∧ String.length (String.substring 0 n s) = n `min` String.length s
    ∧ (truthy hidden = true ↔ n < String.length s).
Proof.
  revert s. induction n as [|n IH]; intros s.
  - exists s. destruct s; simpl; repeat split; try done; lia.
  - destruct s as [|c s]; simpl.
    + exists EmptyString. repeat split; try done; simpl; lia.
    + destruct (IH s) as (hidden & Heq & Hlen & Hhidden).
      exists hidden. rewrite append_cons, <- Heq, Hlen.
      repeat split; try done; rewrite Hhidden; lia.
Qed.

(** X26: the check prints a value in full when it has at most ten
    characters; of a longer one it prints exactly the first ten characters
    and an ellipsis, so never more than thirteen characters in all. *)
Theorem masked_value_shows_ten (value : string) :
  ∃ shown hidden,
    value = shown +:+ hidden
    ∧ String.length shown ≤ 10
    ∧ String.length shown = 10 `min` String.length value
    ∧ shown = String.substring 0 10 value
    ∧ masked_value value = shown +:+ (if truthy hidden then "..." else EmptyString)
    ∧ (truthy hidden = true ↔ 10 < String.length value)
    ∧ String.length (masked_value value) ≤ 13
    ∧ (String.length value ≤ 10 → masked_value value = value).
Proof.
  destruct (substring_prefix 10 value) as (hidden & Heq & Hlen & Hhidden).
  exists (String.substring 0 10 value), hidden.
  unfold masked_value.
  destruct (Nat.ltb_spec 10 (String.length value)) as [Hlong|Hshort].
  - rewrite (proj2 Hhidden Hlong), append_length, Hlen.
    change (String.length "...") with 3.
    repeat split; try done; lia.
  - assert (truthy hidden = false) as Hnone
      by (apply not_true_is_false; intros Ht; apply Hhidden in Ht; lia).
    assert (hidden = EmptyString) as -> by (by destruct hidden).
    rewrite append_nil_r in Heq. simpl. rewrite append_nil_r.
    repeat split; try done; lia.
Qed.

Lemma check_env_fold (env : environ) (vars : list (string * string)) :
  ∀ report all_good,
    let '(report', all_good') :=
      fold_left
        (fun '(report, all_good) '(var_name, description) =>
           match env !! var_name with
           | Some (String c value') =>
               (report ++ [(var_name, Some (masked_value (String c value')))], all_good)
           | _ => (report ++ [(var_name, None)], false)
           end)
        vars (report, all_good) in
    all_good' = all_good && forallb (fun var => env_set env var.1) vars
    ∧ map fst report' = map fst report ++ map fst vars.
Proof.
  induction vars as [|[var_name description] vars IH]; intros report all_good.
  - simpl. by rewrite andb_true_r, app_nil_r.
  - simpl. unfold env_set at 1.
    destruct (env !! var_name) as [[|c value']|]; simpl;
      match goal with
      | |- context [fold_left ?f vars (?r, ?b)] =>
          specialize (IH r b); destruct (fold_left f vars (r, b)) as [r' b']
      end;
      destruct IH as [-> ->]; rewrite map_app, <- app_assoc; simpl;
      by rewrite ?andb_false_r.
Qed.

(** X27: the check reports one line per required variable, in order, and
    calls the environment all good exactly when all six are set to
    non-empty values; the backend then reports itself healthy on BrightData
    with Reddit and the LLM available. *)
Theorem check_env_all_good (env : environ) :
  map fst (check_env env).1 = map fst required_vars
  ∧ ((check_env env).2 = true
     ↔ Forall (fun var => env_set env var.1 = true) required_vars)
  ∧ ((check_env env).2 = true →
     status (health_check env) = "healthy"
     ∧ features (health_check env)
       = ["real_news_brightdata"; "reddit_scraping"; "gemini_ai"]).
Proof.
  pose proof (check_env_fold env required_vars [] true) as Hfold.
  unfold check_env. destruct (fold_left _ required_vars ([], true)) as [report all_good].
  destruct Hfold as [-> Hreport]. simpl fst. simpl snd.
  split; [done|].
  assert (true && forallb (fun var => env_set env var.1) required_vars = true
          ↔ Forall (fun var => env_set env var.1 = true) required_vars) as Hall.
  { unfold required_vars. rewrite !Forall_cons. simpl.
    rewrite !andb_true_iff. pose proof (Forall_nil_2 (fun var : string * string => env_set env var.1 = true)).
    tauto. }
  split; [exact Hall|]. rewrite Hall.
  unfold required_vars. rewrite !Forall_cons. simpl.
  intros (Hgemini & Hkey & Hzone & Htoken & Hunlocker & _).
  unfold health_check. by rewrite Hgemini, Hkey, Hzone, Htoken, Hunlocker.
Qed.

End CheckEnv.

Example healthy_backend_fails_the_check :
  status (health_check env_newsapi) = "healthy" ∧ (check_env env_newsapi).2 = false.
Proof. split; reflexivity. Qed.

Lemma check_env_all_good_witness :
  (check_env env_complete).2 = true
  ∧ status (health_check env_complete) = "healthy"
  ∧ features (health_check env_complete)
    = ["real_news_brightdata"; "reddit_scraping"; "gemini_ai"].
Proof.
  split; [reflexivity|].
  exact (proj2 (proj2 (check_env_all_good env_complete)) eq_refl).
Defined.
